(** * tornet: the rotation controller of [tornet/tornet.py]

    A shallow embedding of the control logic of [tornet.py] (service control,
    address resolution, the rotation loop, the readiness probe and the
    shutdown path), followed by the properties proved about it.

    Conventions of the embedding:
    - every side effect of the program (a shell command, an HTTP request, a
      sleep, a log line) is appended to a chronological trace of events;
    - everything the outside world decides (command output, HTTP responses,
      connection attempts, random draws, signals) is read from an
      environment [Env], indexed by the number of queries made so far;
    - Python exceptions are an explicit outcome [Raise]; a loop that is still
      running when the iteration budget of the model ends is the outcome
      [Spin];
    - the clock is virtual, in milliseconds: [time.sleep] and connection
      attempts are the only things that advance it;
    - signals reach the program while it sleeps: [time.sleep] is the
      suspension point at which the handler runs;
    - [time.sleep] refuses a duration it cannot hold ([OverflowError]) or a
      negative one ([ValueError]); above what every platform accepts, the
      environment says whether the platform lets the program sleep. *)

From Stdlib Require Import ZArith NArith List String Ascii Bool Lia.
Import ListNotations.
Local Open Scope string_scope.
Local Open Scope list_scope.
Local Open Scope Z_scope.

(** ** Python strings (ASCII text) *)

Module PyStr.

(** [str.split(sep)] for a one-character separator: never the empty list. *)
Fixpoint split (sep : ascii) (s : string) : list string :=
  match s with
  | EmptyString => [EmptyString]
  | String c r =>
      if Ascii.eqb c sep then EmptyString :: split sep r
      else match split sep r with
           | [] => [String c EmptyString]
           | x :: xs => String c x :: xs
           end
  end.

(** Does the separator occur in the string? *)
Fixpoint mem (sep : ascii) (s : string) : bool :=
  match s with
  | EmptyString => false
  | String c r => Ascii.eqb c sep || mem sep r
  end.

(** The six whitespace characters of the C locale: what [int] skips around
    a number. *)
Definition is_c_space (c : ascii) : bool :=
  let n := nat_of_ascii c in
  (Nat.eqb n 32 || (Nat.leb 9 n && Nat.leb n 13))%bool.

(** [str.isspace] on ASCII: the six above and the four separators
    [0x1C]-[0x1F]. This is what [str.strip()] removes. *)
Definition is_space (c : ascii) : bool :=
  let n := nat_of_ascii c in
  (is_c_space c || (Nat.leb 28 n && Nat.leb n 31))%bool.

Fixpoint lstrip_with (space : ascii -> bool) (s : string) : string :=
  match s with
  | EmptyString => EmptyString
  | String c r => if space c then lstrip_with space r else s
  end.

Fixpoint rstrip_with (space : ascii -> bool) (s : string) : string :=
  match s with
  | EmptyString => EmptyString
  | String c r =>
      match rstrip_with space r with
      | EmptyString => if space c then EmptyString else String c EmptyString
      | r' => String c r'
      end
  end.

Definition lstrip : string -> string := lstrip_with is_space.
Definition rstrip : string -> string := rstrip_with is_space.

(** [str.strip()] *)
Definition strip (s : string) : string := rstrip (lstrip s).

Definition lower_ascii (c : ascii) : ascii :=
  let n := nat_of_ascii c in
  if (Nat.leb 65 n && Nat.leb n 90)%bool then ascii_of_nat (n + 32) else c.

(** [str.lower()] *)
Fixpoint lower (s : string) : string :=
  match s with
  | EmptyString => EmptyString
  | String c r => String (lower_ascii c) (lower r)
  end.

(** [needle in hay] *)
Fixpoint contains (needle hay : string) : bool :=
  (String.prefix needle hay ||
   match hay with
   | EmptyString => false
   | String _ r => contains needle r
   end)%bool.

Definition is_digit (c : ascii) : bool :=
  let n := nat_of_ascii c in (Nat.leb 48 n && Nat.leb n 57)%bool.

Definition digit_val (c : ascii) : Z := Z.of_nat (nat_of_ascii c) - 48.

Inductive Prev := AtStart | AfterDigit | AfterUnderscore.

(** Decimal digits with single underscores allowed between digits. *)
Fixpoint digits (prev : Prev) (acc : Z) (s : string) : option Z :=
  match s with
  | EmptyString => match prev with AfterDigit => Some acc | _ => None end
  | String c r =>
      if is_digit c then digits AfterDigit (10 * acc + digit_val c) r
      else if Ascii.eqb c "_" then
        match prev with
        | AfterDigit => digits AfterUnderscore acc r
        | _ => None
        end
      else None
  end.

(** [int(s)] on ASCII text: surrounding whitespace, an optional sign, then
    decimal digits; [None] stands for [ValueError]. *)
Definition int_ascii (s : string) : option Z :=
  match rstrip_with is_c_space (lstrip_with is_c_space s) with
  | String "-" r => option_map Z.opp (digits AtStart 0 r)
  | String "+" r => digits AtStart 0 r
  | r => digits AtStart 0 r
  end.

End PyStr.

(** ** Python values that reach the controller *)

(** The [interval] argument of [change_ip_repeatedly]: the annotation says
    [str], but nothing enforces it. *)
Inductive PyVal :=
| PyNone
| PyInt (z : Z)
| PyStr (s : string).

(** An address as the resolvers return it: [None] or a [str]. *)
Definition Addr := option string.

(** Truth value of an address ([if ip:]): [None] and the empty string are
    false. *)
Definition truthy (a : Addr) : bool :=
  match a with
  | None => false
  | Some EmptyString => false
  | Some _ => true
  end.

(** [a or b] on addresses. *)
Definition py_or (a b : Addr) : Addr := if truthy a then a else b.

Definition addr_eqb (a b : Addr) : bool :=
  match a, b with
  | None, None => true
  | Some x, Some y => String.eqb x y
  | _, _ => false
  end.

(** The exceptions the modelled code can meet. *)
Inductive Exn :=
| AttributeError
| IndexError
| TypeError
| ValueError
| RequestException
| CalledProcessError
| OSError
| OverflowError
| KeyboardInterrupt
| SystemExit (code : Z).

Definition is_IndexError (e : Exn) : bool :=
  match e with IndexError => true | _ => false end.
Definition is_RequestException (e : Exn) : bool :=
  match e with RequestException => true | _ => false end.
Definition is_CalledProcessError (e : Exn) : bool :=
  match e with CalledProcessError => true | _ => false end.
(** [except Exception]: everything but the [BaseException]-only classes. *)
Definition is_Exception (e : Exn) : bool :=
  match e with KeyboardInterrupt | SystemExit _ => false | _ => true end.

(** ** Events and the environment *)

Inductive Level := LSuccess | LInfo | LNotice | LMinor | LWarn | LError | LChange.

(** The log lines of the program, by content. *)
Inductive Msg :=
| MStartingTor
| MReloading
| MNoTorProcessReload
| MStoppingAll
| MInitializing
| MTorNoResponse
| MTorStarted
| MConfigureBrowser
| MFetchingIp
| MStaleCircuit (ip1 ip2 : Addr)
| MNotExitNode (ip : Addr)
| MTorFetchFailed
| MDirectFetchFailed
| MRequestingNewIp
| MSleepingFor (secs : Z)
| MBorder (len : nat) (newline : bool)
| MIpChanged (ip : Addr)
| MTorProcessStopped
| MNoTorProcessStop
| MAllStopped
| MTerminatedByUser
| MWaitingForSocks (timeout : Z)
| MSocksResponding
| MSocksTimedOut
| MTorNotInstalled
| MAutoFixComplete
| MInternetLost.

(** The effects of the program: log lines, [print], the four ways a command
    is run, the thread start, [time.sleep], [requests.get], a connection
    attempt with its socket timeout, a call into [utils] or [banner], and
    [atexit.register]. *)
Inductive Event :=
| ELog (lvl : Level) (m : Msg)
| EPrintNewline
| ESystem (cmd : string)
| ERun (cmd : string)
| EPopen (cmd : string)
| ECheckOutput (cmd : string)
| EThreadStart
| ESleep (secs : Z)
| EHttpGet (url : string) (via_proxy : bool) (timeout : option Z)
| EConnect (host : string) (port : Z) (sub_timeout : Z)
| EExternal (name : string)
| EAtexitRegister.

(** [platform.system().lower()] as far as the code distinguishes it. *)
Inductive System := Windows | Darwin | OtherSystem.

Inductive HttpOutcome (B : Type) :=
| TransportFailure
| Response (status : Z) (body : B).
Arguments TransportFailure {B}.
Arguments Response {B} status body.

(** The decoded body of the verification endpoint: [data.get("IP")] and the
    truth value of [data.get("IsTor", False)]. The body is taken as a JSON
    object whose [IP], when present, is a string; what [response.json()]
    does with any other body is outside the model. *)
Record TorBody := { IP : Addr; IsTor : bool }.

(** What the outside world decides. The number of the query is the value of
    [tick] when the program asks.
    - [docker_env]: [os.environ.get('DOCKER_ENV')] is set;
    - [arch_release]: one of the Arch or Manjaro release files exists;
    - [check_output i cmd]: the decoded output of [cmd], [None] when the
      command fails ([CalledProcessError]);
    - [http_tor i], [http_direct i]: the outcome of the request to the
      verification endpoint (through the relay) and to the echo endpoint;
    - [connect i]: whether the connection attempt through the relay succeeds,
      and how many milliseconds it takes;
    - [rand i]: the raw draw behind [random.randint];
    - [signal_pending i]: an interrupt arrives while the program sleeps in
      query [i];
    - [sleep_refusal i]: the exception with which the platform refuses, in
      query [i], a sleep longer than those every platform accepts; [None]
      when it lets the program sleep. *)
Record Env := {
  docker_env : bool;
  arch_release : bool;
  system : System;
  check_output : nat -> string -> option string;
  http_tor : nat -> HttpOutcome TorBody;
  http_direct : nat -> HttpOutcome string;
  connect : nat -> bool * N;
  rand : nat -> Z;
  signal_pending : nat -> bool;
  sleep_refusal : nat -> option Exn
}.

(** ** Program state and the effect monad *)

(** The only function the repository ever registers with [atexit]. *)
Inductive Hook := HookStopServices.

(** The state of the process: the virtual clock (ms), the number of queries
    made to the environment, whether [signal_handler] is installed, the
    registered exit hooks (last registered first) and the trace of effects,
    oldest first. *)
Record State := {
  now : Z;
  tick : nat;
  handler_installed : bool;
  atexit_hooks : list Hook;
  trace : list Event
}.

(** How a run ends: a value, an exception on its way up, or a loop that is
    still running when the model stops following it. *)
Inductive Outcome (A : Type) :=
| Ret (a : A)
| Raise (e : Exn)
| Spin.
Arguments Ret {A} a.
Arguments Raise {A} e.
Arguments Spin {A}.

Definition M (A : Type) : Type := State -> Outcome A * State.

Definition ret {A} (a : A) : M A := fun st => (Ret a, st).

Definition bind {A B} (m : M A) (k : A -> M B) : M B :=
  fun st =>
    match m st with
    | (Ret a, st') => k a st'
    | (Raise e, st') => (Raise e, st')
    | (Spin, st') => (Spin, st')
    end.

Definition raise {A} (e : Exn) : M A := fun st => (Raise e, st).

(** [try: m except <caught>: handler] *)
Definition try_except {A} (m : M A) (caught : Exn -> bool) (handler : Exn -> M A) : M A :=
  fun st =>
    match m st with
    | (Raise e, st') => if caught e then handler e st' else (Raise e, st')
    | r => r
    end.

Declare Scope py_scope.
Delimit Scope py_scope with py.
Notation "x <- c1 ;; c2" := (bind c1 (fun x => c2))
  (at level 61, c1 at next level, right associativity) : py_scope.
Notation "c1 ;; c2" := (bind c1 (fun _ => c2))
  (at level 61, right associativity) : py_scope.
Local Open Scope py_scope.

Definition emit (e : Event) : M unit :=
  fun st => (Ret tt, {| now := now st; tick := tick st;
                        handler_installed := handler_installed st;
                        atexit_hooks := atexit_hooks st;
                        trace := trace st ++ [e] |}).

(** Take the next query number. *)
Definition next_tick : M nat :=
  fun st => (Ret (tick st), {| now := now st; tick := S (tick st);
                               handler_installed := handler_installed st;
                               atexit_hooks := atexit_hooks st;
                               trace := trace st |}).

Definition advance (ms : Z) : M unit :=
  fun st => (Ret tt, {| now := now st + ms; tick := tick st;
                        handler_installed := handler_installed st;
                        atexit_hooks := atexit_hooks st;
                        trace := trace st |}).

(** [signal.signal(sig, signal_handler)] *)
Definition install_handler : M unit :=
  fun st => (Ret tt, {| now := now st; tick := tick st;
                        handler_installed := true;
                        atexit_hooks := atexit_hooks st;
                        trace := trace st |}).

(** [atexit.register(stop_services)] *)
Definition atexit_register (h : Hook) : M unit :=
  fun st => (Ret tt, {| now := now st; tick := tick st;
                        handler_installed := handler_installed st;
                        atexit_hooks := h :: atexit_hooks st;
                        trace := trace st ++ [EAtexitRegister] |}).

Definition spin {A} : M A := fun st => (Spin, st).

(** [time.time()], in milliseconds. *)
Definition time_time : M Z := fun st => (Ret (now st), st).

Definition log (lvl : Level) (m : Msg) : M unit := emit (ELog lvl m).
Definition log_success := log LSuccess.
Definition log_info := log LInfo.
Definition log_notice := log LNotice.
Definition log_minor := log LMinor.
Definition log_warn := log LWarn.
Definition log_error := log LError.
Definition log_change := log LChange.

Definition TOOL_NAME : string := "tornet".

(** [time.sleep] keeps its duration as a signed 64-bit count of
    nanoseconds: a whole number of seconds larger than this, in either
    direction, is an [OverflowError]. *)
Definition sleep_max : Z := 9223372036.

(** Below [sleep_max] the platform has its own ceiling. The lowest one among
    the interpreters the package supports is the 32-bit count of
    milliseconds of Windows before Python 3.11: a sleep of up to this many
    seconds is accepted everywhere. *)
Definition sleep_safe : Z := 4294967.

(** The statuses for which [raise_for_status] raises: client and server
    errors. *)
Definition bad_status (status : Z) : bool :=
  ((400 <=? status) && (status <? 600))%bool.

(** The command line as [argparse] sees it: [None] where a flag is absent. *)
Record Args := {
  arg_interval : option string;
  arg_count : option Z;
  arg_ip : bool;
  arg_auto_fix : bool;
  arg_stop : bool
}.

(** ** The log lines as printed ([log.py]) *)

Module LogPy.

(** The escape character that opens a colour code. *)
Definition esc : string := String (ascii_of_nat 27) EmptyString.

Definition white : string := (esc ++ "[97m")%string.
Definition green : string := (esc ++ "[92m")%string.
Definition red : string := (esc ++ "[91m")%string.
Definition yellow : string := (esc ++ "[93m")%string.
Definition blue : string := (esc ++ "[94m")%string.
Definition magenta : string := (esc ++ "[95m")%string.
Definition cyan : string := (esc ++ "[36m")%string.
Definition gray : string := (esc ++ "[90m")%string.
Definition reset : string := (esc ++ "[0m")%string.

(** The line [log(message, tag, color)] prints. *)
Definition log (message tag color : string) : string :=
  (white ++ " [" ++ color ++ tag ++ white ++ "] " ++ color ++ message ++ reset)%string.

Definition log_success (message : string) : string := log message "+" green.
Definition log_info (message : string) : string := log message "~" blue.
Definition log_notice (message : string) : string := log message "*" cyan.
Definition log_minor (message : string) : string := log message "~" gray.
Definition log_warn (message : string) : string := log message "!" yellow.
Definition log_error (message : string) : string := log message "!" red.
Definition log_change (message : string) : string := log message "+" magenta.

End LogPy.

(** The line printed for a message at a level of the trace. *)
Definition rendered (lvl : Level) (message : string) : string :=
  match lvl with
  | LSuccess => LogPy.log_success message
  | LInfo => LogPy.log_info message
  | LNotice => LogPy.log_notice message
  | LMinor => LogPy.log_minor message
  | LWarn => LogPy.log_warn message
  | LError => LogPy.log_error message
  | LChange => LogPy.log_change message
  end.

(** ** Observations on traces *)

(** The commands that stop the service: those of [stop_tor_service] and the
    [kill <pid>] of container mode. *)
Definition is_stop_command (e : Event) : bool :=
  match e with
  | ESystem cmd =>
      (String.eqb cmd "sudo systemctl stop tor"
       || String.eqb cmd "brew services stop tor"
       || String.eqb cmd "sudo service tor stop"
       || (String.prefix "kill " cmd && negb (String.prefix "kill -HUP " cmd)))%bool
  | ERun cmd => String.eqb cmd "taskkill /IM tor.exe /F"
  | _ => false
  end.

Definition count_events (p : Event -> bool) (tr : list Event) : nat :=
  List.length (List.filter p tr).

Definition stop_invocations (tr : list Event) : nat :=
  count_events is_stop_command tr.

(** The log lines that mark the phases of a rotation cycle. *)
Definition is_cycle_start (e : Event) : bool :=
  match e with ELog LMinor (MSleepingFor _) => true | _ => false end.

Definition is_reload_request (e : Event) : bool :=
  match e with ELog LInfo MReloading => true | _ => false end.

Definition is_resolve (e : Event) : bool :=
  match e with ELog LInfo MFetchingIp => true | _ => false end.

Definition is_report (e : Event) : bool :=
  match e with ELog LChange (MIpChanged _) => true | _ => false end.

Definition is_marker (e : Event) : bool :=
  (is_cycle_start e || is_reload_request e || is_resolve e || is_report e)%bool.

(** The phase markers of a trace, in order. *)
Definition markers (tr : list Event) : list Event := List.filter is_marker tr.



(** What [ma_ip_tor] answers to an outcome of its request. *)
Definition tor_answer (o : HttpOutcome TorBody) : Addr :=
  match o with
  | TransportFailure => None
  | Response status data => if bad_status status then None else IP data
  end.

(** What [ma_ip_tor] logs after its request. *)
Definition tor_log (o : HttpOutcome TorBody) : list Event :=
  match o with
  | TransportFailure => [ELog LError MTorFetchFailed]
  | Response status data =>
      if bad_status status then [ELog LError MTorFetchFailed]
      else if IsTor data then []
      else [ELog LWarn (MNotExitNode (IP data))]
  end.

(** What [ma_ip_normal] answers to an outcome of its request. *)
Definition direct_answer (o : HttpOutcome string) : Addr :=
  match o with
  | TransportFailure => None
  | Response status text => if bad_status status then None else Some (PyStr.strip text)
  end.

(** A request that failed in transport or came back with an error status. *)
Definition failed {B} (o : HttpOutcome B) : bool :=
  match o with
  | TransportFailure => true
  | Response status _ => bad_status status
  end.

(** The state after [dt] milliseconds, [n] queries and the events [evs]. *)
Definition upd (st : State) (dt : Z) (n : nat) (evs : list Event) : State :=
  {| now := now st + dt; tick := tick st + n;
     handler_installed := handler_installed st;
     atexit_hooks := atexit_hooks st;
     trace := trace st ++ evs |}.

(** The calls that act on the system: [os.system], [subprocess.run] and
    [subprocess.Popen]. *)
Definition is_command (e : Event) : bool :=
  match e with
  | ESystem _ => true
  | ERun _ => true
  | EPopen _ => true
  | _ => false
  end.

(** The calls into the installer helpers and the banner. *)
Definition is_external (e : Event) : bool :=
  match e with EExternal _ => true | _ => false end.

Definition is_connect (e : Event) : bool :=
  match e with EConnect _ _ _ => true | _ => false end.

Definition is_http (e : Event) : bool :=
  match e with EHttpGet _ _ _ => true | _ => false end.

(** A command succeeded: its output came back. *)
Definition succeeded (o : option string) : bool :=
  match o with Some _ => true | None => false end.

(** ** Sample environments *)

Definition newline : string := String (ascii_of_nat 10) EmptyString.

Definition st0 : State :=
  {| now := 0; tick := 0; handler_installed := false; atexit_hooks := []; trace := [] |}.

(** A Linux host with Tor up and a healthy exit. *)
Definition linux_env : Env :=
  {| docker_env := false; arch_release := false; system := OtherSystem;
     check_output := fun _ _ => Some ("1234" ++ newline)%string;
     http_tor := fun _ => Response 200 {| IP := Some "185.220.101.1"; IsTor := true |};
     http_direct := fun _ => Response 200 ("203.0.113.7" ++ newline)%string;
     connect := fun _ => (true, 120%N);
     rand := fun i => 7 * Z.of_nat i + 3;
     signal_pending := fun _ => false;
     sleep_refusal := fun _ => None |}.

(** The same host, with an interrupt arriving during the sleep that is query
    number [k]. *)
Definition linux_env_sigint (k : nat) : Env :=
  {| docker_env := false; arch_release := false; system := OtherSystem;
     check_output := fun _ _ => Some ("1234" ++ newline)%string;
     http_tor := fun _ => Response 200 {| IP := Some "185.220.101.1"; IsTor := true |};
     http_direct := fun _ => Response 200 ("203.0.113.7" ++ newline)%string;
     connect := fun _ => (true, 120%N);
     rand := fun i => 7 * Z.of_nat i + 3;
     signal_pending := fun i => Nat.eqb i k;
     sleep_refusal := fun _ => None |}.

(** A container in which nothing works: no Tor process, no network. *)
Definition dead_env : Env :=
  {| docker_env := true; arch_release := false; system := OtherSystem;
     check_output := fun _ _ => None;
     http_tor := fun _ => TransportFailure;
     http_direct := fun _ => TransportFailure;
     connect := fun _ => (false, 5000%N);
     rand := fun _ => 0;
     signal_pending := fun _ => false;
     sleep_refusal := fun _ => None |}.

(** A host without Tor whose echo endpoint answers 200 with a blank body. *)
Definition blank_env : Env :=
  {| docker_env := false; arch_release := false; system := OtherSystem;
     check_output := fun _ _ => None;
     http_tor := fun _ => Response 200 {| IP := Some ""; IsTor := false |};
     http_direct := fun _ => Response 200 newline;
     connect := fun _ => (false, 5000%N);
     rand := fun _ => 0;
     signal_pending := fun _ => false;
     sleep_refusal := fun _ => None |}.

(** A Windows host where the relay answers at the third attempt, and the two
    resolutions of the first probe disagree. *)
Definition windows_env : Env :=
  {| docker_env := false; arch_release := false; system := Windows;
     check_output := fun _ _ => Some "Image Name  PID  TOR.EXE  4242";
     http_tor := fun i =>
       Response 200 {| IP := Some (if Nat.leb i 2 then "185.220.101.1"
                                   else "185.220.101.2");
                       IsTor := true |};
     http_direct := fun _ => TransportFailure;
     connect := fun i => (Nat.leb 4 i, 5000%N);
     rand := fun _ => 0;
     signal_pending := fun _ => false;
     sleep_refusal := fun _ => None |}.


(** A Mac without Homebrew: every probe command fails. *)
Definition mac_env : Env :=
  {| docker_env := false; arch_release := false; system := Darwin;
     check_output := fun _ _ => None;
     http_tor := fun _ => TransportFailure;
     http_direct := fun _ => TransportFailure;
     connect := fun _ => (false, 5000%N);
     rand := fun _ => 0;
     signal_pending := fun _ => false;
     sleep_refusal := fun _ => None |}.

(** A container in which Tor runs as process 4321. *)
Definition container_env : Env :=
  {| docker_env := true; arch_release := false; system := OtherSystem;
     check_output := fun _ _ => Some ("4321" ++ newline)%string;
     http_tor := fun _ => Response 200 {| IP := Some "185.220.101.1"; IsTor := true |};
     http_direct := fun _ => Response 200 ("203.0.113.7" ++ newline)%string;
     connect := fun _ => (true, 120%N);
     rand := fun _ => 0;
     signal_pending := fun _ => false;
     sleep_refusal := fun _ => None |}.


(** A host without Tor whose echo endpoint is out of reach until query 4:
    the first resolution of a run fails, the second one answers. *)
Definition intermittent_env : Env :=
  {| docker_env := false; arch_release := false; system := OtherSystem;
     check_output := fun _ _ => None;
     http_tor := fun _ => TransportFailure;
     http_direct := fun i =>
       if Nat.ltb i 4 then TransportFailure
       else Response 200 ("203.0.113.7" ++ newline)%string;
     connect := fun _ => (false, 5000%N);
     rand := fun _ => 0;
     signal_pending := fun _ => false;
     sleep_refusal := fun _ => None |}.

(** A connection that is up for the probes of the first [k] rounds of the
    connection check and down afterwards. *)
Definition up_for_rounds (k : nat) : nat -> bool :=
  fun i => Nat.ltb i (2 * k + 1).

Definition default_args : Args :=
  {| arg_interval := None; arg_count := None; arg_ip := false;
     arg_auto_fix := false; arg_stop := false |}.

(** ** The program *)

Section Controller.

(** The builtin [int] on a string ([None] stands for [ValueError]); kept
    abstract so that the results hold for every text [int] accepts. *)
Variable py_int : string -> option Z.

Variable E : Env.

(** *** OS determination *)

Definition is_arch_linux : bool := arch_release E.
Definition is_macos : bool :=
  match system E with Darwin => true | _ => false end.
Definition is_windows : bool :=
  match system E with Windows => true | _ => false end.

(** *** Library calls *)

Definition os_system (cmd : string) : M unit := emit (ESystem cmd).
Definition subprocess_run (cmd : string) : M unit := emit (ERun cmd).
Definition subprocess_Popen (cmd : string) : M unit := emit (EPopen cmd).

(** [subprocess.check_output(cmd, shell=True).decode()] *)
Definition subprocess_check_output (cmd : string) : M string :=
  emit (ECheckOutput cmd) ;;
  i <- next_tick ;;
  match check_output E i cmd with
  | Some out => ret out
  | None => raise CalledProcessError
  end.

(** [random.randint(a, b)]: [ValueError] on an empty range, otherwise the
    next draw of the environment folded into [a..b]. *)
Definition random_randint (a b : Z) : M Z :=
  if b <? a then raise ValueError
  else i <- next_tick ;; ret (a + rand E i mod (b - a + 1)).

(** [int(v)] *)
Definition int_of (v : PyVal) : M Z :=
  match v with
  | PyInt z => ret z
  | PyStr s => match py_int s with Some z => ret z | None => raise ValueError end
  | PyNone => raise TypeError
  end.

(** [v.split("-")] *)
Definition split_dash (v : PyVal) : M (list string) :=
  match v with
  | PyStr s => ret (PyStr.split "-" s)
  | _ => raise AttributeError
  end.

(** [l[i]] *)
Definition subscript (l : list string) (i : nat) : M string :=
  match nth_error l i with
  | Some x => ret x
  | None => raise IndexError
  end.

(** [response.raise_for_status()] *)
Definition raise_for_status (status : Z) : M unit :=
  if bad_status status then raise RequestException
  else ret tt.

Definition nonempty (s : string) : bool :=
  match s with EmptyString => false | _ => true end.

Definition external (name : string) : M unit := emit (EExternal name).

(** *** Stopping the service *)

Definition stop_tor_service : M unit :=
  log_info MStoppingAll ;;
  if is_arch_linux then os_system "sudo systemctl stop tor"
  else if is_windows then subprocess_run "taskkill /IM tor.exe /F"
  else if is_macos then os_system "brew services stop tor"
  else os_system "sudo service tor stop".

Definition stop_services : M unit :=
  (if docker_env E then
     try_except
       (out <- subprocess_check_output "pidof tor" ;;
        let tor_pid := PyStr.strip out in
        if nonempty tor_pid then
          os_system ("kill " ++ tor_pid) ;;
          log_success MTorProcessStopped
        else ret tt)
       is_CalledProcessError
       (fun _ => log_error MNoTorProcessStop)
   else stop_tor_service) ;;
  (if negb is_windows then
     os_system ("pkill -f " ++ TOOL_NAME ++ " > /dev/null 2>&1")
   else ret tt) ;;
  log_success MAllStopped.

Definition signal_handler : M unit :=
  stop_services ;;
  emit EPrintNewline ;;
  log_error MTerminatedByUser ;;
  raise (SystemExit 0).

(** What the interpreter does when a signal arrives in the main thread:
    the installed handler, or the default [KeyboardInterrupt]. *)
Definition deliver_signal : M unit :=
  fun st =>
    if handler_installed st then signal_handler st
    else (Raise KeyboardInterrupt, st).

(** What the platform answers, in query [i], to a sleep of [secs] seconds
    that the interpreter let through. *)
Definition sleep_refused (i : nat) (secs : Z) : option Exn :=
  if secs <=? sleep_safe then None else sleep_refusal E i.

(** [time.sleep(secs)] on an integer: the conversion of the duration comes
    first, then the test of its sign, then the platform. A sleep that
    starts is the suspension point at which the model delivers signals. *)
Definition time_sleep (secs : Z) : M unit :=
  if ((secs <? - sleep_max) || (sleep_max <? secs))%bool then raise OverflowError
  else if secs <? 0 then raise ValueError
  else
    i <- next_tick ;;
    match sleep_refused i secs with
    | Some e => raise e
    | None =>
        emit (ESleep secs) ;;
        if signal_pending E i then deliver_signal
        else advance (1000 * secs)
    end.

(** *** Readiness probe *)

(** The body of the [try] in [wait_for_tor]: one connection attempt through
    the relay with [settimeout(5)]. *)
Definition try_connect : M unit :=
  emit (EConnect "api.ipify.org" 80 5) ;;
  i <- next_tick ;;
  advance (Z.of_N (snd (connect E i))) ;;
  if fst (connect E i) then ret tt else raise OSError.

Fixpoint wait_loop (fuel : nat) (start timeout : Z) : M bool :=
  match fuel with
  | O => spin
  | S fuel' =>
      t <- time_time ;;
      if t - start <? 1000 * timeout then
        r <- try_except
               (try_connect ;;
                log_success MSocksResponding ;;
                ret (Some true))
               is_Exception
               (fun _ => time_sleep 2 ;; ret None) ;;
        match r with
        | Some b => ret b
        | None => wait_loop fuel' start timeout
        end
      else
        log_error MSocksTimedOut ;;
        ret false
  end.

Definition wait_for_tor_fuel (fuel : nat) (timeout : Z) : M bool :=
  log_info (MWaitingForSocks timeout) ;;
  start <- time_time ;;
  wait_loop fuel start timeout.

(** Iterations of the [while] loop that can ever be needed: every failed
    attempt costs at least the 2 s delay. *)
Definition wait_budget (timeout : Z) : nat := S (Z.to_nat timeout).

Definition wait_for_tor (timeout : Z) : M bool :=
  wait_for_tor_fuel (wait_budget timeout) timeout.

(** *** Starting and reloading the service *)

Definition is_tor_installed : M bool :=
  try_except
    ((if is_windows then
        _ <- subprocess_check_output "where tor" ;; ret tt
      else if is_macos then
        _ <- subprocess_check_output "which brew" ;;
        _ <- subprocess_check_output "brew list tor" ;; ret tt
      else
        _ <- subprocess_check_output "which tor" ;; ret tt) ;;
     ret true)
    is_CalledProcessError
    (fun _ => ret false).

Definition start_tor_service : M unit :=
  log_info MStartingTor ;;
  if is_arch_linux then os_system "sudo systemctl start tor"
  else if is_windows then subprocess_Popen "tor"
  else if is_macos then os_system "brew services start tor"
  else os_system "sudo service tor start".

(** On Windows the thread that copies the errors of the new process to the
    log is started and then left alone: it only logs. *)
Definition reload_tor_service : M unit :=
  log_info MReloading ;;
  if docker_env E then
    try_except
      (out <- subprocess_check_output "pidof tor" ;;
       let tor_pid := PyStr.strip out in
       if nonempty tor_pid then os_system ("kill -HUP " ++ tor_pid)
       else ret tt)
      is_CalledProcessError
      (fun _ => log_error MNoTorProcessReload)
  else if is_arch_linux then os_system "sudo systemctl reload tor"
  else if is_windows then
    subprocess_run "taskkill /IM tor.exe /F" ;;
    time_sleep 1 ;;
    subprocess_Popen "tor" ;;
    emit EThreadStart ;;
    _ <- wait_for_tor 30 ;;
    ret tt
  else if is_macos then os_system "brew services restart tor"
  else os_system "sudo service tor reload".

(** *** IP address handling *)

Definition is_tor_running : M bool :=
  try_except
    (if is_windows then
       out <- subprocess_check_output "tasklist" ;;
       ret (PyStr.contains "tor.exe" (PyStr.lower out))
     else
       _ <- subprocess_check_output "pgrep -x tor" ;;
       ret true)
    is_CalledProcessError
    (fun _ => ret false).

Definition tor_check_url : string := "https://check.torproject.org/api/ip".
Definition ipify_url : string := "https://api.ipify.org".

Definition ma_ip_tor : M Addr :=
  try_except
    (emit (EHttpGet tor_check_url true (Some 10)) ;;
     i <- next_tick ;;
     match http_tor E i with
     | TransportFailure => raise RequestException
     | Response status data =>
         raise_for_status status ;;
         let ip := IP data in
         let is_tor := IsTor data in
         (if negb is_tor then log_warn (MNotExitNode ip) else ret tt) ;;
         ret ip
     end)
    is_RequestException
    (fun _ => log_error MTorFetchFailed ;; ret None).

Definition ma_ip_normal : M Addr :=
  try_except
    (emit (EHttpGet ipify_url false None) ;;
     i <- next_tick ;;
     match http_direct E i with
     | TransportFailure => raise RequestException
     | Response status text =>
         raise_for_status status ;;
         ret (Some (PyStr.strip text))
     end)
    is_RequestException
    (fun _ => log_error MDirectFetchFailed ;; ret None).

Definition ma_ip : M Addr :=
  log_info MFetchingIp ;;
  running <- is_tor_running ;;
  if running then
    ip1 <- ma_ip_tor ;;
    time_sleep 5 ;;
    ip2 <- ma_ip_tor ;;
    (if (truthy ip1 && truthy ip2 && negb (addr_eqb ip1 ip2))%bool then
       log_warn (MStaleCircuit ip1 ip2)
     else ret tt) ;;
    ret (py_or ip2 ip1)
  else ma_ip_normal.

(** [str(ip)] inside the f-string of [print_ip]. *)
Definition py_str (ip : Addr) : string :=
  match ip with None => "None" | Some s => s end.

Definition print_ip (ip : Addr) : M unit :=
  emit EPrintNewline ;;
  let message := ("Your IP has been changed to: " ++ py_str ip)%string in
  let border := String.length message in
  log_change (MBorder border false) ;;
  log_change (MIpChanged ip) ;;
  log_change (MBorder border true).

(** *** IP rotation *)

Definition change_ip : M Addr :=
  log_info MRequestingNewIp ;;
  reload_tor_service ;;
  ma_ip.

(** The [try]/[except IndexError] that opens every iteration. *)
Definition sleep_time_of (interval : PyVal) : M Z :=
  try_except
    (inte <- split_dash interval ;;
     lo_s <- subscript inte 0 ;;
     lo <- int_of (PyStr lo_s) ;;
     hi_s <- subscript inte 1 ;;
     hi <- int_of (PyStr hi_s) ;;
     random_randint lo hi)
    is_IndexError
    (fun _ => int_of interval).

(** The loop body, textually the same in both branches of
    [change_ip_repeatedly]. *)
Definition rotation_cycle (interval : PyVal) : M unit :=
  sleep_time <- sleep_time_of interval ;;
  log_minor (MSleepingFor sleep_time) ;;
  time_sleep sleep_time ;;
  new_ip <- change_ip ;;
  if truthy new_ip then print_ip new_ip else ret tt.

(** [for _ in range(n): body] *)
Fixpoint for_range (n : nat) (body : M unit) : M unit :=
  match n with
  | O => ret tt
  | S n' => body ;; for_range n' body
  end.

(** [while True: body], cut after [fuel] iterations. *)
Fixpoint while_true (fuel : nat) (body : M unit) : M unit :=
  match fuel with
  | O => spin
  | S fuel' => body ;; while_true fuel' body
  end.

(** [change_ip_repeatedly]; [fuel] bounds the iterations of [while True]
    that the model follows. *)
Definition change_ip_repeatedly (fuel : nat) (interval : PyVal) (count : Z) : M unit :=
  if count =? 0 then while_true fuel (rotation_cycle interval)
  else for_range (Z.to_nat count) (rotation_cycle interval).

(** *** Utility commands and initialization *)

Definition auto_fix : M unit :=
  external "install_pip" ;;
  external "install_requests" ;;
  external "install_tor" ;;
  os_system "pip install --upgrade tornet".

Definition print_start_message : M unit :=
  log_success MTorStarted ;;
  log_notice MConfigureBrowser.

Definition initialize_environment : M unit :=
  log_info MInitializing ;;
  external "install_pip" ;;
  external "install_requests" ;;
  external "install_tor" ;;
  (if negb (docker_env E) then start_tor_service else ret tt) ;;
  ready <- wait_for_tor 30 ;;
  (if negb ready then log_error MTorNoResponse else ret tt) ;;
  print_start_message ;;
  ip <- ma_ip ;;
  print_ip ip.

(** *** CLI entry point *)

(** [add_argument('--interval', type=str, default=60)]: a default that is
    not a string is stored as it is. *)
Definition parsed_interval (a : Args) : PyVal :=
  match arg_interval a with
  | Some s => PyStr s
  | None => PyInt 60
  end.

(** [add_argument('--count', type=int, default=10)] *)
Definition parsed_count (a : Args) : Z :=
  match arg_count a with
  | Some n => n
  | None => 10
  end.

(** [main]; [fuel] bounds the iterations of the endless loop that the model
    follows. The handlers for [SIGINT] and [SIGQUIT]/[SIGBREAK] are the same
    function, installed at once; [--version], which [argparse] answers by
    itself, is left out. The helpers of [utils] and [banner] are opaque
    effects. *)
Definition main (fuel : nat) (a : Args) : M unit :=
  install_handler ;;
  if arg_ip a then
    ip <- ma_ip ;;
    if truthy ip then print_ip ip else ret tt
  else
    installed <- is_tor_installed ;;
    if negb installed then log_error MTorNotInstalled
    else if arg_auto_fix a then auto_fix ;; log_success MAutoFixComplete
    else if arg_stop a then stop_services
    else
      external "print_banner" ;;
      initialize_environment ;;
      change_ip_repeatedly fuel (parsed_interval a) (parsed_count a).

(** *** The connection check and the script entry *)

(** The outcome of the probe of [check_internet_connection] in query [i]:
    [true] when [requests.get] came back with a response, whatever its
    status. *)
Variable internet_up : nat -> bool.

Definition google_url : string := "http://www.google.com".

(** [check_internet_connection]; [fuel] bounds the iterations of
    [while True] that the model follows. *)
Fixpoint check_internet_connection (fuel : nat) : M bool :=
  match fuel with
  | O => spin
  | S fuel' =>
      time_sleep 1 ;;
      r <- try_except
             (emit (EHttpGet google_url false (Some 1)) ;;
              i <- next_tick ;;
              if internet_up i then ret None else raise RequestException)
             is_RequestException
             (fun _ => log_error MInternetLost ;; ret (Some false)) ;;
      match r with
      | Some b => ret b
      | None => check_internet_connection fuel'
      end
  end.

(** The block under [if __name__ == "__main__"]. *)
Definition script_entry (fuel : nat) (a : Args) : M unit :=
  _ <- check_internet_connection fuel ;;
  main fuel a.

(** *** The process around the program *)

Definition run_hook (h : Hook) : M unit :=
  match h with HookStopServices => stop_services end.

(** Hooks run last registered first; [atexit_hooks] is kept in that
    order. *)
Fixpoint run_hooks (hs : list Hook) : M unit :=
  match hs with
  | [] => ret tt
  | h :: hs' => run_hook h ;; run_hooks hs'
  end.

(** The interpreter: run the script and, on every way out of it (return,
    [SystemExit], uncaught exception), the registered exit hooks. *)
Definition interpreter (script : M unit) : M unit :=
  fun st =>
    match script st with
    | (Spin, st') => (Spin, st')
    | (out, st') => (out, snd (run_hooks (atexit_hooks st') st'))
    end.

(** [test_sample.py] *)
Definition test_sample (fuel : nat) : M unit :=
  install_handler ;;
  atexit_register HookStopServices ;;
  initialize_environment ;;
  change_ip_repeatedly fuel (PyStr "60") 0.

(** *** Reading aids for the statements *)

(** The range the loop draws its sleep duration from, as the [try] block
    reads the interval: the first two dash-separated components, or the
    single component twice for a fixed interval. [None] when the block
    raises. *)
Definition interval_range (interval : PyVal) : option (Z * Z) :=
  match interval with
  | PyStr s =>
      match PyStr.split "-" s with
      | [] => None
      | [d] => match py_int d with Some v => Some (v, v) | None => None end
      | a :: b :: _ =>
          match py_int a, py_int b with
          | Some lo, Some hi => if hi <? lo then None else Some (lo, hi)
          | _, _ => None
          end
      end
  | _ => None
  end.

(** No signal ever arrives. *)
Definition no_signal : Prop := forall i, signal_pending E i = false.

(** The command [is_tor_running] asks the system. *)
Definition process_probe : string :=
  if is_windows then "tasklist" else "pgrep -x tor".

(** Whether query [i], asked for the process list, shows a Tor process. *)
Definition tor_process_seen (i : nat) : bool :=
  match check_output E i process_probe with
  | Some out =>
      if is_windows then PyStr.contains "tor.exe" (PyStr.lower out) else true
  | None => false
  end.

(** The outcome of a run that a signal cut short: [SystemExit] from the
    handler, or the default [KeyboardInterrupt]. *)
Definition interrupted {A} (o : Outcome A) : Prop :=
  (exists i, signal_pending E i = true) /\
  exists e, o = Raise e /\ is_Exception e = false.

(** [post m st Q]: the run of [m] from [st] only appends events [evs] to the
    trace, and its outcome, final state and [evs] satisfy [Q]. *)
Definition post {A} (m : M A) (st : State)
  (Q : Outcome A -> State -> list Event -> Prop) : Prop :=
  exists evs,
    trace (snd (m st)) = trace st ++ evs /\ Q (fst (m st)) (snd (m st)) evs.

(** [returns m R]: from every state, [m] returns a value and appends events
    that satisfy [R], unless a signal cuts it short. It never raises
    otherwise and never spins. *)
Definition returns {A} (m : M A) (R : A -> list Event -> Prop) : Prop :=
  forall st,
    post m st (fun o _ evs => interrupted o \/ exists a, o = Ret a /\ R a evs).


(** The two requests and the settle delay of a proxied resolution. *)
Definition is_resolution_step (e : Event) : bool :=
  match e with
  | EHttpGet _ _ _ => true
  | ESleep _ => true
  | _ => false
  end.



(** The trace of [k] failed connection attempts: each with the 5 s socket
    timeout, each followed by the 2 s delay. *)
Fixpoint failed_attempts (k : nat) : list Event :=
  match k with
  | O => []
  | S k' => EConnect "api.ipify.org" 80 5 :: ESleep 2 :: failed_attempts k'
  end.

(** How [wait_for_tor] ends: a successful attempt, or the timeout message. *)
Definition wait_ending (b : bool) : list Event :=
  if b then [EConnect "api.ipify.org" 80 5; ELog LSuccess MSocksResponding]
  else [ELog LError MSocksTimedOut].

(** Whether the probes of [is_tor_installed], asked from query [i] on, all
    succeed: one command, or two on macOS. *)
Definition tor_found (i : nat) : bool :=
  if is_windows then succeeded (check_output E i "where tor")
  else if is_macos then
    (succeeded (check_output E i "which brew")
     && succeeded (check_output E (S i) "brew list tor"))%bool
  else succeeded (check_output E i "which tor").

(** The pid that [stop_services] and [reload_tor_service] read in container
    mode from query [i]; empty when [pidof] fails. *)
Definition tor_pid (i : nat) : string :=
  match check_output E i "pidof tor" with
  | Some out => PyStr.strip out
  | None => EmptyString
  end.

(** The blank line and the three lines [print_ip] writes for an address. *)
Definition report_events (ip : Addr) : list Event :=
  let border := String.length ("Your IP has been changed to: " ++ py_str ip)%string in
  [EPrintNewline; ELog LChange (MBorder border false);
   ELog LChange (MIpChanged ip); ELog LChange (MBorder border true)].

(** One cycle of the rotation loop, by what it did: the seconds it slept,
    the effects of its reload, the effects of its resolution, and the
    address that resolution returned. *)
Record Cycle := {
  slept : Z;
  reloading : list Event;
  resolving : list Event;
  resolved : Addr
}.

(** How a cycle opens: the line that announces the sleep, the sleep, the
    request for a new address. *)
Definition cycle_opening (s : Z) : list Event :=
  [ELog LMinor (MSleepingFor s); ESleep s; ELog LInfo MRequestingNewIp].

(** The events of a cycle, in order; the report is there only when the
    address is true. *)
Definition cycle_events (c : Cycle) : list Event :=
  cycle_opening (slept c) ++ reloading c ++ resolving c
  ++ (if truthy (resolved c) then report_events (resolved c) else []).




(** An event that is not the announcement of a false address. *)
Definition announces_truly (e : Event) : bool :=
  match e with
  | ELog LChange (MIpChanged a) => truthy a
  | _ => true
  end.

(** However [m] ends, it announces no false address. *)
Definition truthful {A} (m : M A) : Prop :=
  forall st, exists evs,
    trace (snd (m st)) = trace st ++ evs /\ forallb announces_truly evs = true.


(** The trace of [k] rounds of [check_internet_connection] that found the
    connection up. *)
Fixpoint connection_checks (k : nat) : list Event :=
  match k with
  | O => []
  | S k' => ESleep 1 :: EHttpGet google_url false (Some 1) :: connection_checks k'
  end.

(** ** Properties *)

(** *** The effect monad *)

(** Unfold the primitives of the monad and reduce the plumbing. *)
Ltac run_prims :=
  unfold try_except, bind, os_system, subprocess_run, subprocess_Popen,
    external, log_success, log_info, log_notice, log_minor, log_warn,
    log_error, log_change, log, emit, next_tick, advance, time_time, ret,
    raise, spin;
  cbn [fst snd now tick trace handler_installed atexit_hooks].

(** The same when the events on the right are still to be found. *)
Ltac state_ex :=
  unfold upd; cbn [fst snd now tick trace handler_installed atexit_hooks];
  repeat rewrite <- app_assoc; cbn [app];
  repeat (f_equal; try lia).

(** Close an equation between two runs: same outcome, same state. *)
Ltac state_eq :=
  unfold upd; cbn [fst snd now tick trace handler_installed atexit_hooks];
  repeat rewrite <- app_assoc; cbn [app]; rewrite ?app_nil_r;
  repeat (f_equal; try lia).

Lemma bind_ret_run {A B} (m : M A) (k : A -> M B) st a st' :
  m st = (Ret a, st') -> bind m k st = k a st'.
Proof. intros H; unfold bind; rewrite H; reflexivity. Qed.

Lemma bind_raise_run {A B} (m : M A) (k : A -> M B) st e st' :
  m st = (Raise e, st') -> bind m k st = (Raise e, st').
Proof. intros H; unfold bind; rewrite H; reflexivity. Qed.

Lemma upd_id st : upd st 0 0 [] = st.
Proof.
  destruct st; unfold upd; simpl.
  rewrite Z.add_0_r, Nat.add_0_r, app_nil_r; reflexivity.
Qed.

Lemma tick_upd st d n e : tick (upd st d n e) = (tick st + n)%nat.
Proof. reflexivity. Qed.

Lemma now_upd st d n e : now (upd st d n e) = now st + d.
Proof. reflexivity. Qed.

Lemma trace_upd st d n e : trace (upd st d n e) = trace st ++ e.
Proof. reflexivity. Qed.

Lemma upd_upd st d1 n1 e1 d2 n2 e2 :
  upd (upd st d1 n1 e1) d2 n2 e2 = upd st (d1 + d2) (n1 + n2) (e1 ++ e2).
Proof.
  unfold upd; simpl; f_equal; [lia | lia | apply eq_sym, app_assoc].
Qed.

Lemma count_events_app p a b :
  count_events p (a ++ b) = (count_events p a + count_events p b)%nat.
Proof. unfold count_events; rewrite filter_app, length_app; reflexivity. Qed.

Lemma markers_app a b : markers (a ++ b) = markers a ++ markers b.
Proof. apply filter_app. Qed.

(** *** Stopping the service *)

(** One call of [stop_services] outside container mode: always returns, and
    leaves exactly one stop command in the trace. *)
Lemma stop_services_once st :
  docker_env E = false ->
  exists evs,
    stop_services st = (Ret tt, upd st 0 0 evs) /\ stop_invocations evs = 1%nat.
Proof.
  intros Hd.
  unfold stop_services, stop_tor_service, is_arch_linux, is_windows, is_macos.
  rewrite Hd.
  destruct (arch_release E), (system E); eexists; split;
    try (cbv -[Z.add Nat.add app]; rewrite Z.add_0_r, Nat.add_0_r, <- ?app_assoc; reflexivity);
    reflexivity.
Qed.

(** C1 (as amended): [stop_services] carries no once-only guard. Outside
    container mode every call returns normally and runs the stop command of
    the platform again, so [n] calls in a row leave exactly [n] stop commands
    in the trace. *)
Theorem stop_services_every_call_stops (n : nat) (st : State) :
  docker_env E = false ->
  exists st',
    for_range n stop_services st = (Ret tt, st') /\
    stop_invocations (trace st') = (stop_invocations (trace st) + n)%nat.
Proof.
  intros Hd. revert st.
  induction n as [|n IH]; intros st.
  - exists st; split; [reflexivity | lia].
  - destruct (stop_services_once st Hd) as [evs [Hrun Hone]].
    destruct (IH (upd st 0 0 evs)) as [st' [Hrest Hcount]].
    exists st'; split.
    + simpl. rewrite (bind_ret_run _ _ _ _ _ Hrun). exact Hrest.
    + rewrite Hcount. simpl trace. unfold stop_invocations in *.
      rewrite count_events_app. lia.
Qed.

(** *** Splitting and the sleep duration *)

Lemma split_nonempty sep s : PyStr.split sep s <> [].
Proof.
  destruct s as [|c r]; simpl; [discriminate|].
  destruct (Ascii.eqb c sep); [discriminate|].
  destruct (PyStr.split sep r); discriminate.
Qed.

(** A string without the separator is its own single component. *)
Lemma split_no_sep sep s : PyStr.mem sep s = false -> PyStr.split sep s = [s].
Proof.
  induction s as [|c r IH]; simpl; intros H; [reflexivity|].
  apply orb_false_iff in H as [Hc Hr].
  rewrite Hc, (IH Hr). reflexivity.
Qed.

(** The first separator ends the first component. *)
Lemma split_app sep a b :
  PyStr.mem sep a = false ->
  PyStr.split sep (a ++ String sep b)%string = a :: PyStr.split sep b.
Proof.
  induction a as [|c r IH]; simpl; intros H.
  - rewrite Ascii.eqb_refl. reflexivity.
  - apply orb_false_iff in H as [Hc Hr].
    rewrite Hc, (IH Hr). reflexivity.
Qed.

(** A single component is the whole string. *)
Lemma split_single sep s d : PyStr.split sep s = [d] -> d = s.
Proof.
  revert d. induction s as [|c r IH]; simpl; intros d H.
  - congruence.
  - destruct (Ascii.eqb c sep).
    + exfalso. injection H as _ H. exact (split_nonempty _ _ H).
    + destruct (PyStr.split sep r) as [|x xs] eqn:Hs.
      * exfalso. exact (split_nonempty _ _ Hs).
      * injection H as H1 H2. subst xs. rewrite <- H1, (IH x eq_refl). reflexivity.
Qed.

Lemma next_tick_run st : next_tick st = (Ret (tick st), upd st 0 1 []).
Proof.
  unfold next_tick, upd. rewrite Z.add_0_r, Nat.add_1_r, app_nil_r. reflexivity.
Qed.

Lemma emit_run e st : emit e st = (Ret tt, upd st 0 0 [e]).
Proof. unfold emit, upd. rewrite Z.add_0_r, Nat.add_0_r. reflexivity. Qed.

Lemma advance_run ms st : advance ms st = (Ret tt, upd st ms 0 []).
Proof. unfold advance, upd. rewrite Nat.add_0_r, app_nil_r. reflexivity. Qed.

(** [random.randint] on a proper range: one draw, inside the range. *)
Lemma random_randint_run lo hi st :
  lo <= hi ->
  random_randint lo hi st
  = (Ret (lo + rand E (tick st) mod (hi - lo + 1)), upd st 0 1 []) /\
  lo <= lo + rand E (tick st) mod (hi - lo + 1) <= hi.
Proof.
  intros Hle. unfold random_randint.
  destruct (Z.ltb_spec hi lo) as [Hlt|_]; [lia|].
  split.
  - unfold bind. rewrite next_tick_run. reflexivity.
  - pose proof (Z.mod_pos_bound (rand E (tick st)) (hi - lo + 1)). lia.
Qed.

(** The [try] block on a string, by the components it reads. *)
Lemma sleep_time_of_fixed s d v st :
  PyStr.split "-" s = [d] -> py_int d = Some v ->
  sleep_time_of (PyStr s) st = (Ret v, st).
Proof.
  intros Hs Hd. pose proof (split_single _ _ _ Hs) as ->.
  unfold sleep_time_of, try_except, bind, split_dash, ret, subscript, int_of.
  rewrite Hs. simpl. rewrite Hd. simpl. reflexivity.
Qed.

Lemma sleep_time_of_range s a b rest lo hi st :
  PyStr.split "-" s = a :: b :: rest ->
  py_int a = Some lo -> py_int b = Some hi -> lo <= hi ->
  sleep_time_of (PyStr s) st
  = (Ret (lo + rand E (tick st) mod (hi - lo + 1)), upd st 0 1 []).
Proof.
  intros Hs Ha Hb Hle.
  destruct (random_randint_run lo hi st Hle) as [Hr _].
  unfold sleep_time_of, try_except, bind, split_dash, ret, subscript, int_of.
  rewrite Hs. simpl. rewrite Ha, Hb. simpl. rewrite Hr. reflexivity.
Qed.

(** On every interval with a range, the [try] block returns a duration
    inside the range and emits nothing. *)
Lemma sleep_time_of_valid interval lo hi st :
  interval_range interval = Some (lo, hi) ->
  exists s n,
    sleep_time_of interval st = (Ret s, upd st 0 n []) /\ lo <= s <= hi.
Proof.
  unfold interval_range. destruct interval as [|z|s]; try discriminate.
  destruct (PyStr.split "-" s) as [|a [|b rest]] eqn:Hs; try discriminate.
  - destruct (py_int a) as [v|] eqn:Ha; [|discriminate].
    intros H; injection H as <- <-.
    exists v, 0%nat. rewrite upd_id. split; [|lia].
    eapply sleep_time_of_fixed; eassumption.
  - destruct (py_int a) as [x|] eqn:Ha; [|discriminate].
    destruct (py_int b) as [y|] eqn:Hb; [|discriminate].
    destruct (Z.ltb_spec y x) as [|Hle]; [discriminate|].
    intros H; injection H as <- <-.
    exists (x + rand E (tick st) mod (y - x + 1)), 1%nat. split.
    + eapply sleep_time_of_range; eassumption.
    + apply (random_randint_run x y st Hle).
Qed.

(** The two shapes of interval the documentation names: a number, and two
    numbers joined by a dash. *)
Lemma interval_range_of_text a b lo hi :
  PyStr.mem "-" a = false -> PyStr.mem "-" b = false ->
  py_int a = Some lo -> py_int b = Some hi -> lo <= hi ->
  interval_range (PyStr a) = Some (lo, lo) /\
  interval_range (PyStr (a ++ "-" ++ b)) = Some (lo, hi).
Proof.
  intros Ha Hb Hlo Hhi Hle. unfold interval_range. split.
  - rewrite split_no_sep by assumption. rewrite Hlo. reflexivity.
  - change (a ++ "-" ++ b)%string with (a ++ String "-" b)%string.
    rewrite split_app by assumption. rewrite split_no_sep by assumption.
    rewrite Hlo, Hhi. destruct (Z.ltb_spec hi lo); [lia | reflexivity].
Qed.

(** The [try] block on a string whose components it cannot use. *)
Lemma sleep_time_of_malformed s a rest st :
  PyStr.split "-" s = a :: rest ->
  (py_int a = None \/
   exists b rest', rest = b :: rest' /\
     (py_int b = None \/
      exists lo hi, py_int a = Some lo /\ py_int b = Some hi /\ hi < lo)) ->
  sleep_time_of (PyStr s) st = (Raise ValueError, st).
Proof.
  intros Hs H.
  unfold sleep_time_of, try_except, bind, split_dash, ret, subscript, int_of.
  rewrite Hs. simpl.
  destruct H as [Ha | [b [rest' [-> [Hb | [lo [hi [Ha [Hb Hlt]]]]]]]]].
  - rewrite Ha. reflexivity.
  - destruct (py_int a); simpl; [rewrite Hb|]; reflexivity.
  - rewrite Ha. simpl. rewrite Hb. simpl. unfold random_randint.
    destruct (Z.ltb_spec hi lo); [reflexivity | lia].
Qed.

(** The [try] block on a value that is not a string: [split] does not
    exist, and [except IndexError] does not catch that. *)
Lemma sleep_time_of_not_str interval st :
  (forall s, interval <> PyStr s) ->
  sleep_time_of interval st = (Raise AttributeError, st).
Proof.
  intros H. destruct interval as [|z|s]; try reflexivity.
  exfalso. exact (H s eq_refl).
Qed.

(** An exception of the [try] block leaves the loop from its first
    iteration, before anything else of the body runs. *)
Lemma loop_raises_at_once fuel interval count e st st' :
  sleep_time_of interval st = (Raise e, st') ->
  0 < count \/ (count = 0 /\ fuel <> O) ->
  change_ip_repeatedly fuel interval count st = (Raise e, st').
Proof.
  intros Hs Hc.
  assert (Hbody : rotation_cycle interval st = (Raise e, st')).
  { unfold rotation_cycle. apply bind_raise_run. exact Hs. }
  unfold change_ip_repeatedly.
  destruct Hc as [Hpos | [-> Hfuel]].
  - destruct (Z.eqb_spec count 0) as [|_]; [lia|].
    destruct (Z.to_nat count) as [|n] eqn:Hn; [lia|].
    simpl. apply bind_raise_run. exact Hbody.
  - simpl. destruct fuel as [|f]; [congruence|].
    simpl. apply bind_raise_run. exact Hbody.
Qed.

(** *** Resolving the address *)



Lemma ma_ip_tor_run st :
  ma_ip_tor st
  = (Ret (tor_answer (http_tor E (tick st))),
     upd st 0 1 (EHttpGet tor_check_url true (Some 10) :: tor_log (http_tor E (tick st)))).
Proof.
  unfold ma_ip_tor, raise_for_status, tor_answer, tor_log. run_prims.
  destruct (http_tor E (tick st)) as [|status data]; cbn; [state_eq|].
  destruct (bad_status status); cbn; [state_eq|].
  destruct (IsTor data); cbn; state_eq.
Qed.

Lemma ma_ip_normal_run st :
  ma_ip_normal st
  = (Ret (direct_answer (http_direct E (tick st))),
     upd st 0 1 (EHttpGet ipify_url false None ::
                 (if failed (http_direct E (tick st))
                  then [ELog LError MDirectFetchFailed] else []))).
Proof.
  unfold ma_ip_normal, raise_for_status, direct_answer, failed. run_prims.
  destruct (http_direct E (tick st)) as [|status text]; cbn; [state_eq|].
  destruct (bad_status status); cbn; state_eq.
Qed.

Lemma is_tor_running_run st :
  is_tor_running st
  = (Ret (tor_process_seen (tick st)), upd st 0 1 [ECheckOutput process_probe]).
Proof.
  unfold is_tor_running, tor_process_seen, process_probe, subprocess_check_output.
  run_prims.
  destruct is_windows; cbn;
    destruct (check_output E (tick st) _); cbn; state_eq.
Qed.

(** The tests of [time.sleep] on a duration every platform accepts. *)
Lemma sleep_in_range secs :
  0 <= secs -> secs <= sleep_safe ->
  ((secs <? - sleep_max) || (sleep_max <? secs))%bool = false /\
  (secs <? 0) = false /\ (secs <=? sleep_safe) = true.
Proof.
  unfold sleep_safe, sleep_max. intros H0 H1.
  rewrite orb_false_iff, !Z.ltb_ge, Z.leb_le. lia.
Qed.

(** [time.sleep] of a duration every platform accepts, when no signal
    arrives during it. *)
Lemma time_sleep_run secs st :
  0 <= secs -> secs <= sleep_safe -> signal_pending E (tick st) = false ->
  time_sleep secs st = (Ret tt, upd st (1000 * secs) 1 [ESleep secs]).
Proof.
  intros Hs Hsafe Hsig. unfold time_sleep, sleep_refused.
  destruct (sleep_in_range secs Hs Hsafe) as [-> [-> ->]].
  run_prims. rewrite Hsig. state_eq.
Qed.







(** C5 (as amended): a request that fails in transport or comes back with
    an error status (4xx or 5xx) makes the resolver return [None], without
    raising; this holds for the proxied and for the direct resolver. *)
Theorem failed_request_returns_None (st : State) :
  (failed (http_tor E (tick st)) = true ->
   exists evs, ma_ip_tor st = (Ret None, upd st 0 1 evs)) /\
  (failed (http_direct E (tick st)) = true ->
   exists evs, ma_ip_normal st = (Ret None, upd st 0 1 evs)).
Proof.
  split; intros Hf.
  - eexists. rewrite ma_ip_tor_run. do 2 f_equal.
    unfold tor_answer. destruct (http_tor E (tick st)) as [|status data];
      [reflexivity|]. simpl in Hf. rewrite Hf. reflexivity.
  - eexists. rewrite ma_ip_normal_run. do 2 f_equal.
    unfold direct_answer. destruct (http_direct E (tick st)) as [|status text];
      [reflexivity|]. simpl in Hf. rewrite Hf. reflexivity.
Qed.

(** *** The interval *)

(** C3: a fixed interval [a] makes every cycle sleep exactly its value; a
    range [a-b] with [lo <= hi] makes the cycle sleep an integer drawn by
    [random.randint] inside [lo..hi], and every value of the range is drawn
    for some draw of the environment. *)
Theorem sleep_time_fixed_or_within_range (a b : string) (lo hi : Z) (st : State) :
  PyStr.mem "-" a = false ->
  PyStr.mem "-" b = false ->
  py_int a = Some lo ->
  py_int b = Some hi ->
  lo <= hi ->
  sleep_time_of (PyStr a) st = (Ret lo, st) /\
  exists s,
    sleep_time_of (PyStr (a ++ "-" ++ b)) st = (Ret s, upd st 0 1 []) /\
    lo <= s <= hi /\
    (forall v, lo <= v <= hi -> rand E (tick st) = v - lo -> s = v).
Proof.
  intros Ha Hb Hlo Hhi Hle. split.
  - apply sleep_time_of_fixed with (d := a); [apply split_no_sep|]; assumption.
  - exists (lo + rand E (tick st) mod (hi - lo + 1)).
    split; [|split].
    + apply sleep_time_of_range with (a := a) (b := b) (rest := []); try assumption.
      change (a ++ "-" ++ b)%string with (a ++ String "-" b)%string.
      rewrite split_app by assumption.
      rewrite split_no_sep by assumption. reflexivity.
    + apply (random_randint_run lo hi st Hle).
    + intros v Hv Hr. rewrite Hr, Z.mod_small by lia. lia.
Qed.

(** C2 (as amended): the interval is not checked before the loop; every
    iteration reads it again. When the first component is not a number, or a
    second component exists and is not a number, or the first two components
    are numbers with the lower above the upper, the first iteration raises
    [ValueError] before it logs, sleeps or reloads: the loop leaves the state
    as it found it. Components after the second are never read. *)
Theorem malformed_interval_raises_before_first_sleep
  (s a : string) (rest : list string) (fuel : nat) (count : Z) (st : State) :
  PyStr.split "-" s = a :: rest ->
  (py_int a = None \/
   exists b rest', rest = b :: rest' /\
     (py_int b = None \/
      exists lo hi, py_int a = Some lo /\ py_int b = Some hi /\ hi < lo)) ->
  0 < count \/ (count = 0 /\ fuel <> O) ->
  change_ip_repeatedly fuel (PyStr s) count st = (Raise ValueError, st).
Proof.
  intros Hs Hbad Hc.
  apply loop_raises_at_once; [|exact Hc].
  eapply sleep_time_of_malformed; eassumption.
Qed.

(** C9: an interval that is not a string, such as the integer 60 that
    [argparse] leaves when [--interval] is absent, makes the first iteration
    raise [AttributeError], which nothing catches; the loop leaves the state
    as it found it, so no sleep has happened. *)
Theorem non_string_interval_raises_AttributeError
  (interval : PyVal) (fuel : nat) (count : Z) (st : State) :
  (forall s, interval <> PyStr s) ->
  0 < count \/ (count = 0 /\ fuel <> O) ->
  change_ip_repeatedly fuel interval count st = (Raise AttributeError, st) /\
  (forall a, arg_interval a = None ->
   parsed_interval a = PyInt 60 /\ forall s, parsed_interval a <> PyStr s).
Proof.
  intros Hns Hc. split.
  - apply loop_raises_at_once; [|exact Hc].
    apply sleep_time_of_not_str. exact Hns.
  - intros a Ha. unfold parsed_interval. rewrite Ha.
    split; [reflexivity | discriminate].
Qed.

(** *** Runs that return *)







(** A run given by an equation returns. *)
Lemma returns_run {A} (m : M A) (R : A -> list Event -> Prop) :
  (forall st, exists a d n evs, m st = (Ret a, upd st d n evs) /\ R a evs) ->
  returns m R.
Proof.
  intros H st. destruct (H st) as [a [d [n [evs [Hrun Hr]]]]].
  exists evs. rewrite Hrun. split; [reflexivity|]. right.
  exists a. split; [reflexivity | exact Hr].
Qed.


Lemma returns_emit e : returns (emit e) (fun _ evs => evs = [e]).
Proof.
  apply returns_run. intros st. exists tt, 0, 0%nat, [e].
  rewrite emit_run. auto.
Qed.




(** [stop_services] always returns, whatever the platform answers. *)
Lemma stop_services_run st :
  exists n evs, stop_services st = (Ret tt, upd st 0 n evs) /\ markers evs = [].
Proof.
  unfold stop_services, stop_tor_service, subprocess_check_output,
    is_arch_linux, is_windows, is_macos.
  run_prims.
  destruct (docker_env E); cbn.
  - destruct (check_output E (tick st) "pidof tor") as [out|]; cbn.
    + destruct (nonempty (PyStr.strip out)); cbn;
        destruct (system E); cbn;
        (exists 1%nat; eexists; split; [state_ex | reflexivity]).
    + destruct (system E); cbn;
        (exists 1%nat; eexists; split; [state_ex | reflexivity]).
  - destruct (arch_release E), (system E); cbn;
      (exists 0%nat; eexists; split; [state_ex | reflexivity]).
Qed.

(** [time.sleep] of a duration every platform accepts: it returns after the
    delay, or a pending signal ends it with an exception that
    [except Exception] does not catch. *)
Lemma time_sleep_cases secs st :
  0 <= secs -> secs <= sleep_safe ->
  (signal_pending E (tick st) = false /\
   time_sleep secs st = (Ret tt, upd st (1000 * secs) 1 [ESleep secs])) \/
  (signal_pending E (tick st) = true /\
   exists e n evs,
     time_sleep secs st = (Raise e, upd st 0 n evs) /\
     is_Exception e = false /\ markers evs = []).
Proof.
  intros Hs Hsafe. destruct (signal_pending E (tick st)) eqn:Hsig.
  - right. split; [reflexivity|].
    unfold time_sleep, sleep_refused.
    destruct (sleep_in_range secs Hs Hsafe) as [-> [-> ->]].
    run_prims. rewrite Hsig. unfold deliver_signal.
    cbn [handler_installed].
    destruct (handler_installed st) eqn:Hh.
    + unfold signal_handler, bind.
      match goal with |- context [stop_services ?s] =>
        destruct (stop_services_run s) as [n [evs [Hrun Hm]]]; rewrite Hrun end.
      run_prims.
      exists (SystemExit 0), (1 + n)%nat,
        ([ESleep secs] ++ evs ++ [EPrintNewline; ELog LError MTerminatedByUser]).
      split; [unfold upd; cbn [handler_installed]; rewrite Hh; state_eq|].
      split; [reflexivity|].
      rewrite !markers_app, Hm. reflexivity.
    + exists KeyboardInterrupt, 1%nat, [ESleep secs].
      split; [unfold upd; cbn [handler_installed]; rewrite Hh; state_eq|].
      split; reflexivity.
  - left. split; [reflexivity|]. apply time_sleep_run; assumption.
Qed.


(** *** The readiness probe *)



(** One iteration of the [while] loop of [wait_for_tor]. *)
Lemma wait_loop_step f start timeout st :
  wait_loop (S f) start timeout st
  = if now st - start <? 1000 * timeout then
      if fst (connect E (tick st)) then
        (Ret true, upd st (Z.of_N (snd (connect E (tick st)))) 1 (wait_ending true))
      else
        match time_sleep 2 (upd st (Z.of_N (snd (connect E (tick st)))) 1
                              [EConnect "api.ipify.org" 80 5]) with
        | (Ret _, st') => wait_loop f start timeout st'
        | (Raise e, st') => (Raise e, st')
        | (Spin, st') => (Spin, st')
        end
    else (Ret false, upd st 0 0 (wait_ending false)).
Proof.
  cbn [wait_loop]. unfold try_connect, wait_ending.
  unfold bind at 1. unfold time_time at 1.
  destruct (now st - start <? 1000 * timeout); [|run_prims; state_eq].
  unfold bind at 1. unfold try_except at 1.
  unfold bind at 1. unfold bind at 1. rewrite emit_run.
  unfold bind at 1. rewrite next_tick_run.
  unfold bind at 1. rewrite advance_run, !tick_upd, !Nat.add_0_r.
  destruct (fst (connect E (tick st))).
  - run_prims. rewrite !upd_upd. state_eq.
  - unfold raise. cbn [is_Exception]. unfold bind, ret.
    rewrite !upd_upd. cbn [app Z.add Nat.add].
    destruct (time_sleep 2 _) as [[[]|e|] st']; reflexivity.
Qed.

(** The loop of [wait_for_tor], once the budget covers the time left: it
    never spins. Either a signal ends it, or it returns after [k] failed
    attempts, with [true] at the first attempt that succeeds and [false]
    when the deadline has passed. *)
Lemma wait_loop_cases fuel start timeout st :
  1000 * timeout - (now st - start) <= 2000 * (Z.of_nat fuel - 1) ->
  (1 <= fuel)%nat ->
  (exists e d n evs,
     wait_loop fuel start timeout st = (Raise e, upd st d n evs) /\
     is_Exception e = false /\ markers evs = [] /\
     exists i, signal_pending E i = true) \/
  (exists (k : nat) (b : bool) (d : Z),
     wait_loop fuel start timeout st
     = (Ret b, upd st d (2 * k + (if b then 1 else 0))%nat
                 (failed_attempts k ++ wait_ending b)) /\
     (forall j, (j < k)%nat -> fst (connect E (tick st + 2 * j)) = false) /\
     (b = true -> fst (connect E (tick st + 2 * k)) = true) /\
     (b = false -> 1000 * timeout <= now st + d - start) /\
     2000 * Z.of_nat k <= d /\
     ((0 < k)%nat -> now st - start + 2000 * (Z.of_nat k - 1) < 1000 * timeout) /\
     (b = true -> now st - start + 2000 * Z.of_nat k < 1000 * timeout)).
Proof.
  revert st. induction fuel as [|f IH]; intros st Hinv Hfuel; [lia|].
  rewrite wait_loop_step.
  destruct (Z.ltb_spec (now st - start) (1000 * timeout)) as [Hlt|Hge].
  - destruct (fst (connect E (tick st))) eqn:Hok.
    + right. exists 0%nat, true, (Z.of_N (snd (connect E (tick st)))).
      split; [reflexivity|].
      repeat split; intros; try lia; try discriminate.
      rewrite Nat.add_0_r. exact Hok.
    + set (dur := Z.of_N (snd (connect E (tick st)))).
      assert (Hdur : 0 <= dur) by apply N2Z.is_nonneg.
      set (st1 := upd st dur 1 [EConnect "api.ipify.org" 80 5]).
      destruct (time_sleep_cases 2 st1 ltac:(lia) ltac:(unfold sleep_safe; lia))
        as [[Hsig Hrun] | [Hsig [e [n [evs [Hrun [He Hm]]]]]]]; rewrite Hrun.
      * assert (Hst2 : upd st1 (1000 * 2) 1 [ESleep 2]
                       = upd st (dur + 2000) 2 (failed_attempts 1)).
        { unfold st1. rewrite upd_upd. reflexivity. }
        rewrite Hst2.
        destruct (IH (upd st (dur + 2000) 2 (failed_attempts 1)))
          as [[e [d [n [evs [Hrec [He [Hm Hs]]]]]]]
             | [k [b [d [Hrec [Hfail [Htrue [Hfalse [Hd [Hk Hb]]]]]]]]]].
        { rewrite now_upd. lia. }
        { lia. }
        { left. exists e, (dur + 2000 + d), (2 + n)%nat, (failed_attempts 1 ++ evs).
          rewrite Hrec, upd_upd. split; [reflexivity|].
          split; [exact He|]. split; [|exact Hs].
          rewrite markers_app, Hm. reflexivity. }
        { right. exists (S k), b, (dur + 2000 + d).
          rewrite Hrec, upd_upd, now_upd, tick_upd in *.
          split; [state_eq|].
          split; [|split; [|split; [|split; [|split]]]].
          - intros [|j] Hj; [rewrite Nat.add_0_r; exact Hok|].
            replace (tick st + 2 * S j)%nat with (tick st + 2 + 2 * j)%nat by lia.
            apply Hfail. lia.
          - intros Hbt.
            replace (tick st + 2 * S k)%nat with (tick st + 2 + 2 * k)%nat by lia.
            exact (Htrue Hbt).
          - intros Hbf. specialize (Hfalse Hbf). lia.
          - lia.
          - intros _. destruct k as [|k']; [lia|].
            specialize (Hk ltac:(lia)). lia.
          - intros Hbt. specialize (Hb Hbt). lia. }
      * left. exists e, dur, (1 + n)%nat, ([EConnect "api.ipify.org" 80 5] ++ evs).
        unfold st1. rewrite upd_upd. split; [state_eq|].
        split; [exact He|]. split; [|eauto].
        rewrite markers_app, Hm. reflexivity.
  - right. exists 0%nat, false, 0.
    split; [reflexivity|].
    repeat split; intros; try lia; try discriminate.
Qed.

Lemma wait_for_tor_fuel_cases fuel timeout st :
  (wait_budget timeout <= fuel)%nat ->
  (exists e d n evs,
     wait_for_tor_fuel fuel timeout st = (Raise e, upd st d n evs) /\
     is_Exception e = false /\ markers evs = [] /\
     exists i, signal_pending E i = true) \/
  (exists (k : nat) (b : bool) (d : Z),
     wait_for_tor_fuel fuel timeout st
     = (Ret b, upd st d (2 * k + (if b then 1 else 0))%nat
                 ([ELog LInfo (MWaitingForSocks timeout)]
                  ++ failed_attempts k ++ wait_ending b)) /\
     (forall j, (j < k)%nat -> fst (connect E (tick st + 2 * j)) = false) /\
     (b = true -> fst (connect E (tick st + 2 * k)) = true) /\
     (b = false -> 1000 * timeout <= d) /\
     2000 * Z.of_nat k <= d /\
     ((0 < k)%nat -> 2 * (Z.of_nat k - 1) < timeout) /\
     (b = true -> 2 * Z.of_nat k < timeout)).
Proof.
  intros Hfuel. unfold wait_budget in Hfuel.
  unfold wait_for_tor_fuel, bind, log_info, log, time_time.
  rewrite emit_run.
  set (st1 := upd st 0 0 [ELog LInfo (MWaitingForSocks timeout)]).
  assert (Hnow : now st1 = now st) by (unfold st1; rewrite now_upd; lia).
  destruct (wait_loop_cases fuel (now st1) timeout st1)
    as [[e [d [n [evs [Hrun [He [Hm Hs]]]]]]]
       | [k [b [d [Hrun [Hfail [Htrue [Hfalse [Hd [Hk Hb]]]]]]]]]];
    try lia; rewrite Hrun; unfold st1 in *; rewrite upd_upd.
  - left. exists e, d, n, ([ELog LInfo (MWaitingForSocks timeout)] ++ evs).
    split; [state_eq|]. split; [exact He|]. split; [|exact Hs].
    rewrite markers_app, Hm. reflexivity.
  - right. exists k, b, d. rewrite tick_upd, Nat.add_0_r in *.
    split; [state_eq|].
    split; [exact Hfail|]. split; [exact Htrue|].
    split; [intros Hbf; specialize (Hfalse Hbf); lia|].
    split; [lia|].
    split; [intros Hpos; specialize (Hk Hpos); lia
           | intros Hbt; specialize (Hb Hbt); lia].
Qed.



(** *** One rotation cycle *)








Lemma print_ip_run ip st :
  print_ip ip st = (Ret tt, upd st 0 0 (report_events ip)).
Proof. unfold print_ip, report_events. run_prims. state_eq. Qed.




(** A duration too large for [time.sleep] ends the loop in its first
    iteration: the line that announces the sleep is written, then
    [OverflowError] leaves the loop, before any sleep or reload. *)
Lemma oversized_interval_raises_OverflowError interval lo hi fuel count st :
  interval_range interval = Some (lo, hi) ->
  sleep_max < lo ->
  0 < count \/ (count = 0 /\ fuel <> O) ->
  exists s n,
    lo <= s <= hi /\
    change_ip_repeatedly fuel interval count st
    = (Raise OverflowError, upd st 0 n [ELog LMinor (MSleepingFor s)]).
Proof.
  intros Hr Hbig Hc.
  destruct (sleep_time_of_valid interval lo hi st Hr) as [s [n [Hrun Hs]]].
  exists s, n. split; [exact Hs|].
  assert (Hbody : rotation_cycle interval st
                  = (Raise OverflowError, upd st 0 n [ELog LMinor (MSleepingFor s)])).
  { unfold rotation_cycle. rewrite (bind_ret_run _ _ _ _ _ Hrun).
    unfold bind at 1. unfold log_minor, log. rewrite emit_run, upd_upd.
    apply bind_raise_run. unfold time_sleep.
    replace (sleep_max <? s) with true by (symmetry; apply Z.ltb_lt; lia).
    rewrite orb_true_r. unfold raise. f_equal. state_eq. }
  unfold change_ip_repeatedly.
  destruct Hc as [Hpos | [-> Hfuel]].
  - destruct (Z.eqb_spec count 0) as [|_]; [lia|].
    destruct (Z.to_nat count) as [|k] eqn:Hk; [lia|].
    cbn [for_range]. apply bind_raise_run. exact Hbody.
  - cbn [Z.eqb]. destruct fuel as [|f]; [congruence|].
    cbn [while_true]. apply bind_raise_run. exact Hbody.
Qed.

(** *** The rotation loop *)












(** *** Further properties: edges of the loop and of the probe *)

(** X1: a negative count makes [range(count)] empty: the loop returns at once
    and does not even read the interval, whatever it is. *)
Theorem negative_count_runs_no_cycle
  (interval : PyVal) (fuel : nat) (count : Z) (st : State) :
  count < 0 ->
  change_ip_repeatedly fuel interval count st = (Ret tt, st).
Proof.
  intros Hneg. unfold change_ip_repeatedly.
  destruct count as [|p|p]; try lia. reflexivity.
Qed.

(** X2: with a timeout of zero or less, [wait_for_tor] makes no connection
    attempt at all: it logs that it waits, logs the timeout and returns
    [false], without touching the clock. *)
Theorem wait_for_tor_without_time_never_connects (timeout : Z) (st : State) :
  timeout <= 0 ->
  wait_for_tor timeout st
  = (Ret false,
     upd st 0 0 [ELog LInfo (MWaitingForSocks timeout); ELog LError MSocksTimedOut]).
Proof.
  intros Hle. unfold wait_for_tor, wait_budget.
  replace (Z.to_nat timeout) with 0%nat by lia.
  unfold wait_for_tor_fuel, bind, log_info, log, time_time.
  rewrite emit_run, wait_loop_step, now_upd.
  destruct (Z.ltb_spec (now st + 0 - (now st + 0)) (1000 * timeout)); [lia|].
  unfold wait_ending. rewrite upd_upd. reflexivity.
Qed.

(** The clock of the loop of [wait_for_tor] stays below the deadline plus
    one attempt and one delay. *)
Lemma wait_loop_overshoot fuel start timeout D st :
  (forall i, Z.of_N (snd (connect E i)) <= D) ->
  now st - start < 1000 * timeout + D + 2000 ->
  now (snd (wait_loop fuel start timeout st)) - start < 1000 * timeout + D + 2000.
Proof.
  intros HD. revert st. induction fuel as [|f IH]; intros st Hinv; [exact Hinv|].
  rewrite wait_loop_step.
  destruct (Z.ltb_spec (now st - start) (1000 * timeout)) as [Hlt|Hge].
  - pose proof (HD (tick st)) as Hd.
    pose proof (N2Z.is_nonneg (snd (connect E (tick st)))) as Hd0.
    destruct (fst (connect E (tick st))).
    + cbn [snd]. rewrite now_upd. lia.
    + set (st1 := upd st (Z.of_N (snd (connect E (tick st)))) 1
                    [EConnect "api.ipify.org" 80 5]).
      destruct (time_sleep_cases 2 st1 ltac:(lia) ltac:(unfold sleep_safe; lia))
        as [[_ Hrun] | [_ [e [n [evs [Hrun _]]]]]]; rewrite Hrun.
      * apply IH. unfold st1. rewrite !now_upd. lia.
      * cbn [snd]. unfold st1. rewrite !now_upd. lia.
  - cbn [snd]. rewrite now_upd. lia.
Qed.

(** X3: the timeout of [wait_for_tor] is checked only between attempts, so
    the call can outlast it, but by less than one attempt and one delay: if
    no attempt takes more than [D] ms, the call ends less than
    [1000 * timeout + D + 2000] ms after it began, in every environment. *)
Theorem wait_for_tor_ends_soon_after_deadline (timeout D : Z) (st : State) :
  0 <= timeout ->
  (forall i, Z.of_N (snd (connect E i)) <= D) ->
  now (snd (wait_for_tor timeout st)) - now st < 1000 * timeout + D + 2000.
Proof.
  intros HT HD.
  pose proof (HD 0%nat) as Hd. pose proof (N2Z.is_nonneg (snd (connect E 0))) as Hd0.
  unfold wait_for_tor, wait_for_tor_fuel, bind, log_info, log, time_time.
  rewrite emit_run.
  set (st1 := upd st 0 0 [ELog LInfo (MWaitingForSocks timeout)]).
  assert (Hnow : now st1 = now st) by (unfold st1; rewrite now_upd; lia).
  pose proof (wait_loop_overshoot (wait_budget timeout) (now st1) timeout D st1 HD
                ltac:(lia)) as Hloop.
  rewrite Hnow in Hloop at 2. exact Hloop.
Qed.

(** *** Further properties: probing the system *)

(** X4: when the process probe does not show Tor, [ma_ip] resolves the
    address with one direct request and nothing else: no proxied request, no
    sleep, the clock untouched, and therefore no signal can cut it short. *)
Theorem ma_ip_without_tor_asks_directly (st : State) :
  tor_process_seen (tick st) = false ->
  exists st' evs,
    ma_ip st = (Ret (direct_answer (http_direct E (tick st + 1))), st') /\
    trace st' = trace st ++ evs /\
    filter is_resolution_step evs = [EHttpGet ipify_url false None] /\
    now st' = now st.
Proof.
  intros Hseen. unfold ma_ip, bind, log_info, log.
  rewrite emit_run, is_tor_running_run, tick_upd, Nat.add_0_r, Hseen.
  rewrite ma_ip_normal_run, !tick_upd, Nat.add_0_r, !upd_upd.
  eexists. eexists. split; [reflexivity|].
  rewrite trace_upd, now_upd. split; [reflexivity|].
  split; [|lia].
  cbn [app filter is_resolution_step].
  destruct (failed (http_direct E (tick st + 1))); reflexivity.
Qed.

Lemma lower_app a b : PyStr.lower (a ++ b) = (PyStr.lower a ++ PyStr.lower b)%string.
Proof. induction a as [|c a IH]; cbn; [reflexivity | rewrite IH; reflexivity]. Qed.

Lemma prefix_app a b : String.prefix a (a ++ b) = true.
Proof.
  induction a as [|c a IH]; cbn; [destruct b; reflexivity|].
  destruct (ascii_dec c c) as [_|Hne]; [exact IH | contradiction].
Qed.

Lemma contains_app needle pre post :
  PyStr.contains needle (pre ++ needle ++ post) = true.
Proof.
  induction pre as [|c pre IH]; cbn [append].
  - destruct (needle ++ post)%string eqn:Heq; cbn [PyStr.contains];
      rewrite <- Heq, prefix_app; reflexivity.
  - cbn [PyStr.contains]. rewrite IH. apply orb_true_r.
Qed.

(** X5: on Windows the test for a running Tor is a substring test on the
    lower-cased task list: any output in which [tor.exe] occurs, in any
    letter case and inside any longer name, counts as Tor running. *)
Theorem is_tor_running_matches_any_tor_exe (pre name post : string) (st : State) :
  is_windows = true ->
  check_output E (tick st) "tasklist" = Some (pre ++ name ++ post)%string ->
  PyStr.lower name = "tor.exe" ->
  is_tor_running st = (Ret true, upd st 0 1 [ECheckOutput "tasklist"]).
Proof.
  intros Hw Hout Hname. rewrite is_tor_running_run.
  unfold tor_process_seen, process_probe. rewrite Hw, Hout.
  rewrite !lower_app, Hname, contains_app. reflexivity.
Qed.

(** What [is_tor_installed] asks and answers. *)
Lemma is_tor_installed_run st :
  exists n evs,
    is_tor_installed st = (Ret (tor_found (tick st)), upd st 0 n evs) /\
    filter is_command evs = [] /\ filter is_external evs = [] /\
    markers evs = [] /\
    (is_macos = true -> is_windows = false ->
     check_output E (tick st) "which brew" = None ->
     evs = [ECheckOutput "which brew"]).
Proof.
  unfold is_tor_installed, tor_found, subprocess_check_output. run_prims.
  destruct is_windows; cbn.
  - destruct (check_output E (tick st) "where tor"); cbn;
      (exists 1%nat; eexists; split; [state_ex|]; repeat split; discriminate).
  - destruct is_macos; cbn.
    + destruct (check_output E (tick st) "which brew"); cbn.
      * destruct (check_output E (S (tick st)) "brew list tor"); cbn;
          (exists 2%nat; eexists; split; [state_ex|]; repeat split; discriminate).
      * exists 1%nat; eexists; split; [state_ex|]. repeat split.
    + destruct (check_output E (tick st) "which tor"); cbn;
        (exists 1%nat; eexists; split; [state_ex|]; repeat split; discriminate).
Qed.

(** X6: [is_tor_installed] never raises: a failing probe command is
    answered with [false]. It answers [true] exactly when every probe of the
    platform succeeds, and on macOS a missing Homebrew ends the test after
    the first command: [brew list tor] is not run. *)
Theorem is_tor_installed_absorbs_failures (st : State) :
  exists st' evs,
    is_tor_installed st = (Ret (tor_found (tick st)), st') /\
    trace st' = trace st ++ evs /\
    (is_macos = true -> is_windows = false ->
     check_output E (tick st) "which brew" = None ->
     tor_found (tick st) = false /\ evs = [ECheckOutput "which brew"]).
Proof.
  destruct (is_tor_installed_run st) as [n [evs [Hrun [_ [_ [_ Hbrew]]]]]].
  exists (upd st 0 n evs), evs. split; [exact Hrun|]. split; [reflexivity|].
  intros Hm Hw Hnone. split; [|auto].
  unfold tor_found. rewrite Hw, Hm, Hnone. reflexivity.
Qed.

(** X7: without [--ip], [main] does nothing on a machine where the probe
    for Tor fails: it logs the error and returns. No command is run and no
    installer helper is called, also under [--auto-fix] and [--stop]: the
    installers are reached only where Tor is found already. *)
Theorem main_without_tor_runs_nothing (fuel : nat) (a : Args) (st : State) :
  arg_ip a = false ->
  tor_found (tick st) = false ->
  exists st' evs,
    main fuel a st = (Ret tt, st') /\
    trace st' = trace st ++ evs /\
    filter is_command evs = [] /\
    filter is_external evs = [] /\
    markers evs = [] /\
    List.last evs EPrintNewline = ELog LError MTorNotInstalled.
Proof.
  intros Hip Hnot.
  destruct (is_tor_installed_run (snd (install_handler st)))
    as [n [evs [Hrun [Hc [Hx [Hm _]]]]]].
  cbn [install_handler snd tick] in Hrun. rewrite Hnot in Hrun.
  unfold main, bind at 1. cbn [install_handler]. rewrite Hip.
  unfold bind at 1. rewrite Hrun. cbn [negb].
  unfold log_error, log. rewrite emit_run, upd_upd.
  eexists. exists (evs ++ [ELog LError MTorNotInstalled]).
  split; [reflexivity|]. split; [reflexivity|].
  rewrite markers_app, !filter_app, Hc, Hx, Hm.
  repeat split. apply last_last.
Qed.

(** *** Further properties: stopping and reloading *)

(** X8: in container mode [stop_services] never goes through the service
    manager. It kills the pid that [pidof] reports; when [pidof] fails or
    reports nothing it kills nothing. Either way it returns normally and
    its last line says that the services were stopped. *)
Theorem stop_services_in_container (st : State) :
  docker_env E = true ->
  exists st' evs,
    stop_services st = (Ret tt, st') /\
    trace st' = trace st ++ evs /\
    filter is_command evs
    = (if nonempty (tor_pid (tick st))
       then [ESystem ("kill " ++ tor_pid (tick st))] else [])
      ++ (if is_windows then []
          else [ESystem "pkill -f tornet > /dev/null 2>&1"]) /\
    List.last evs EPrintNewline = ELog LSuccess MAllStopped.
Proof.
  intros Hd.
  unfold stop_services, subprocess_check_output, tor_pid, is_windows.
  rewrite Hd. run_prims.
  destruct (check_output E (tick st) "pidof tor") as [out|]; cbn.
  - destruct (nonempty (PyStr.strip out)); cbn; destruct (system E); cbn;
      (eexists; eexists; split; [reflexivity|];
       cbn [trace]; rewrite <- ?app_assoc; cbn [app];
       split; [reflexivity|]; split; reflexivity).
  - destruct (system E); cbn;
      (eexists; eexists; split; [reflexivity|];
       cbn [trace]; rewrite <- ?app_assoc; cbn [app];
       split; [reflexivity|]; split; reflexivity).
Qed.

(** X9: the signal handler always reaches its [exit(0)]: [stop_services]
    cannot raise in any mode, so every handled interrupt ends in
    [SystemExit] with status 0, after the events of one [stop_services] and
    the two closing lines, also when nothing could be stopped. *)
Theorem signal_handler_always_exits_with_zero (st : State) :
  signal_handler st
  = (Raise (SystemExit 0),
     upd (snd (stop_services st)) 0 0 [EPrintNewline; ELog LError MTerminatedByUser]).
Proof.
  unfold signal_handler, bind.
  destruct (stop_services_run st) as [n [evs [Hrun _]]]. rewrite Hrun.
  run_prims. state_eq.
Qed.

Lemma stop_invocations_failed_attempts k :
  stop_invocations (failed_attempts k) = 0%nat.
Proof. induction k as [|k IH]; [reflexivity | exact IH]. Qed.

(** X10: reloading stops the service only on Windows outside container
    mode, where the reload is a kill of [tor.exe] followed by a fresh
    start; on every other path no stop command is issued. *)
Theorem reload_stops_only_on_windows (st : State) :
  no_signal ->
  exists st' evs,
    reload_tor_service st = (Ret tt, st') /\
    trace st' = trace st ++ evs /\
    stop_invocations evs
    = (if (negb (docker_env E) && negb is_arch_linux && is_windows)%bool
       then 1%nat else 0%nat) /\
    filter is_command evs
    = if docker_env E then
        if nonempty (tor_pid (tick st))
        then [ESystem ("kill -HUP " ++ tor_pid (tick st))] else []
      else if is_arch_linux then [ESystem "sudo systemctl reload tor"]
      else if is_windows then [ERun "taskkill /IM tor.exe /F"; EPopen "tor"]
      else if is_macos then [ESystem "brew services restart tor"]
      else [ESystem "sudo service tor reload"].
Proof.
  intros Hns.
  unfold reload_tor_service, tor_pid, subprocess_check_output.
  destruct (docker_env E); cbn [negb andb].
  - run_prims.
    destruct (check_output E (tick st) "pidof tor") as [out|]; cbn;
      [destruct (PyStr.strip out); cbn|];
      (eexists; eexists; split; [reflexivity|];
       cbn [trace]; rewrite <- ?app_assoc; cbn [app];
       split; [reflexivity|];
       split; reflexivity).
  - destruct is_arch_linux; cbn [negb andb].
    + run_prims. eexists; eexists; split; [reflexivity|].
      cbn [trace]. rewrite <- ?app_assoc. cbn [app].
      split; [reflexivity|]; split; reflexivity.
    + destruct is_windows.
      * unfold bind at 1. unfold log_info, log. rewrite emit_run.
        unfold bind at 1. unfold subprocess_run. rewrite emit_run.
        unfold bind at 1.
        rewrite time_sleep_run by (first [lia | unfold sleep_safe; lia | apply Hns]).
        unfold bind at 1. unfold subprocess_Popen. rewrite emit_run.
        unfold bind at 1. rewrite emit_run. rewrite !upd_upd.
        unfold bind at 1. unfold wait_for_tor.
        match goal with
        | |- context [wait_for_tor_fuel ?f ?t ?s] =>
            destruct (wait_for_tor_fuel_cases f t s (le_n _))
              as [[e [d [n [evs [_ [_ [_ [i Hi]]]]]]]] | [k [b [d [Hrun _]]]]];
              [rewrite (Hns i) in Hi; discriminate | rewrite Hrun]
        end.
        unfold ret. rewrite upd_upd.
        eexists; eexists; split; [reflexivity|].
        rewrite trace_upd. split; [reflexivity|].
        unfold stop_invocations. rewrite !count_events_app.
        unfold count_events at 4. rewrite !filter_app.
        fold (count_events is_stop_command (failed_attempts k)).
        fold (stop_invocations (failed_attempts k)).
        rewrite stop_invocations_failed_attempts.
        assert (Hq : forall k, filter is_command (failed_attempts k) = []).
        { intros j; induction j as [|j IH]; [reflexivity | exact IH]. }
        rewrite Hq. destruct b; split; reflexivity.
      * run_prims. destruct is_macos; cbn;
          (eexists; eexists; split; [reflexivity|];
           cbn [trace]; rewrite <- ?app_assoc; cbn [app];
           split; [reflexivity|]; split; reflexivity).
Qed.

(** *** Further properties: the clock *)



















(** *** Further properties: what is reported *)

Lemma truthful_ret {A} (a : A) : truthful (ret a).
Proof. intros st. exists []. cbn. rewrite app_nil_r. auto. Qed.

Lemma truthful_raise {A} e : truthful (@raise A e).
Proof. intros st. exists []. cbn. rewrite app_nil_r. auto. Qed.

Lemma truthful_spin {A} : truthful (@spin A).
Proof. intros st. exists []. cbn. rewrite app_nil_r. auto. Qed.

Lemma truthful_time_time : truthful time_time.
Proof. intros st. exists []. cbn. rewrite app_nil_r. auto. Qed.

Lemma truthful_next_tick : truthful next_tick.
Proof. intros st. exists []. cbn. rewrite app_nil_r. auto. Qed.

Lemma truthful_advance ms : truthful (advance ms).
Proof. intros st. exists []. cbn. rewrite app_nil_r. auto. Qed.

Lemma truthful_emit e : announces_truly e = true -> truthful (emit e).
Proof. intros He st. exists [e]. cbn. rewrite He. auto. Qed.

Lemma truthful_bind {A B} (m : M A) (k : A -> M B) :
  truthful m -> (forall a, truthful (k a)) -> truthful (bind m k).
Proof.
  intros Hm Hk st. destruct (Hm st) as [e1 [H1 P1]]. unfold bind.
  destruct (m st) as [[a|e|] st1]; cbn [snd] in *; [|exists e1; auto..].
  destruct (Hk a st1) as [e2 [H2 P2]]. exists (e1 ++ e2).
  rewrite H2, H1, app_assoc, forallb_app, P1, P2. auto.
Qed.

Lemma truthful_try_except {A} (m : M A) caught (h : Exn -> M A) :
  truthful m -> (forall e, truthful (h e)) -> truthful (try_except m caught h).
Proof.
  intros Hm Hh st. destruct (Hm st) as [e1 [H1 P1]]. unfold try_except.
  destruct (m st) as [[a|e|] st1]; cbn [snd] in *; [exists e1; auto| |exists e1; auto].
  destruct (caught e); cbn [snd]; [|exists e1; auto].
  destruct (Hh e st1) as [e2 [H2 P2]]. exists (e1 ++ e2).
  rewrite H2, H1, app_assoc, forallb_app, P1, P2. auto.
Qed.

(** Prove that straight-line code announces no false address. *)
Ltac truly :=
  unfold os_system, subprocess_run, subprocess_Popen, subprocess_check_output,
    external, log_success, log_info, log_notice, log_minor, log_warn,
    log_error, log_change, log, raise_for_status;
  repeat first
    [ apply truthful_ret | apply truthful_raise | apply truthful_spin
    | apply truthful_time_time | apply truthful_next_tick | apply truthful_advance
    | apply truthful_emit; reflexivity
    | assumption
    | apply truthful_bind; [|intros ?]
    | apply truthful_try_except; [|intros ?]
    | match goal with
      | |- truthful (if ?c then _ else _) => destruct c
      | |- truthful (match ?x with _ => _ end) => destruct x
      end ].

Lemma truthful_stop_services : truthful stop_services.
Proof. unfold stop_services, stop_tor_service. truly. Qed.

Lemma truthful_time_sleep secs : truthful (time_sleep secs).
Proof.
  unfold time_sleep.
  destruct ((secs <? - sleep_max) || (sleep_max <? secs))%bool; [apply truthful_raise|].
  destruct (secs <? 0); [apply truthful_raise|].
  apply truthful_bind; [apply truthful_next_tick | intros i].
  destruct (sleep_refused i secs); [apply truthful_raise|].
  apply truthful_bind; [apply truthful_emit; reflexivity | intros _].
  destruct (signal_pending E i); [|apply truthful_advance].
  intros st. unfold deliver_signal.
  destruct (handler_installed st); [|exists []; cbn; rewrite app_nil_r; auto].
  revert st. unfold signal_handler. pose proof truthful_stop_services. truly.
Qed.

Lemma truthful_wait_for_tor timeout : truthful (wait_for_tor timeout).
Proof.
  unfold wait_for_tor, wait_for_tor_fuel.
  apply truthful_bind; [truly | intros _].
  apply truthful_bind; [truly | intros start].
  induction (wait_budget timeout) as [|f IH]; cbn [wait_loop]; [truly|].
  apply truthful_bind; [truly | intros t].
  destruct (t - start <? 1000 * timeout); [|truly].
  apply truthful_bind; [|intros [b|]; [apply truthful_ret | exact IH]].
  pose proof (truthful_time_sleep 2). unfold try_connect. truly.
Qed.

Lemma truthful_reload_tor_service : truthful reload_tor_service.
Proof.
  unfold reload_tor_service.
  pose proof (truthful_time_sleep 1). pose proof (truthful_wait_for_tor 30). truly.
Qed.

Lemma truthful_ma_ip : truthful ma_ip.
Proof.
  unfold ma_ip, is_tor_running, ma_ip_tor, ma_ip_normal.
  pose proof (truthful_time_sleep 5). truly.
Qed.

(** The iteration announces an address only behind its test. *)
Lemma truthful_rotation_cycle interval : truthful (rotation_cycle interval).
Proof.
  unfold rotation_cycle, change_ip.
  apply truthful_bind;
    [unfold sleep_time_of, split_dash, subscript, int_of, random_randint; truly
    | intros s].
  apply truthful_bind; [truly | intros _].
  apply truthful_bind; [apply truthful_time_sleep | intros _].
  apply truthful_bind.
  - pose proof truthful_reload_tor_service. pose proof truthful_ma_ip. truly.
  - intros new_ip. destruct (truthy new_ip) eqn:Ht; [|apply truthful_ret].
    intros st. rewrite print_ip_run. exists (report_events new_ip).
    split; [reflexivity|]. cbn. rewrite Ht. reflexivity.
Qed.

Lemma truthful_loop fuel interval count :
  truthful (change_ip_repeatedly fuel interval count).
Proof.
  pose proof (truthful_rotation_cycle interval) as Hbody.
  unfold change_ip_repeatedly. destruct (count =? 0).
  - induction fuel as [|f IH]; cbn [while_true]; [apply truthful_spin|].
    apply truthful_bind; [exact Hbody | intros _; exact IH].
  - induction (Z.to_nat count) as [|k IH]; cbn [for_range]; [apply truthful_ret|].
    apply truthful_bind; [exact Hbody | intros _; exact IH].
Qed.

(** X12: the rotation loop never announces an address that is [None] or
    empty: every "Your IP has been changed" line of the loop carries a true
    address. *)
Theorem rotation_reports_only_true_addresses
  (interval : PyVal) (lo hi count : Z) (fuel : nat) (st : State) :
  interval_range interval = Some (lo, hi) ->
  0 <= lo ->
  no_signal ->
  exists evs,
    trace (snd (change_ip_repeatedly fuel interval count st)) = trace st ++ evs /\
    forall a, In (ELog LChange (MIpChanged a)) evs -> truthy a = true.
Proof.
  intros _ _ _.
  destruct (truthful_loop fuel interval count st) as [evs [Ht Hall]].
  exists evs. split; [exact Ht|].
  intros a Hin. rewrite forallb_forall in Hall. exact (Hall _ Hin).
Qed.










(** *** Further properties: the connection check *)

(** One round of [check_internet_connection]. *)
Lemma check_internet_connection_step f st :
  check_internet_connection (S f) st
  = match time_sleep 1 st with
    | (Ret _, st1) =>
        if internet_up (tick st1) then
          check_internet_connection f
            (upd st1 0 1 [EHttpGet google_url false (Some 1)])
        else
          (Ret false,
           upd st1 0 1 [EHttpGet google_url false (Some 1); ELog LError MInternetLost])
    | (Raise e, st1) => (Raise e, st1)
    | (Spin, st1) => (Spin, st1)
    end.
Proof.
  cbn [check_internet_connection]. unfold bind at 1.
  destruct (time_sleep 1 st) as [[[]|e|] st1]; try reflexivity.
  run_prims. destruct (internet_up (tick st1)); cbn.
  - f_equal. state_eq.
  - state_eq.
Qed.

Lemma check_internet_connection_never_true fuel st :
  fst (check_internet_connection fuel st) <> Ret true.
Proof.
  revert st. induction fuel as [|f IH]; intros st; [discriminate|].
  rewrite check_internet_connection_step.
  destruct (time_sleep 1 st) as [[[]|e|] st1]; try discriminate.
  destruct (internet_up (tick st1)); [apply IH | discriminate].
Qed.

Lemma check_internet_connection_while_up fuel st :
  no_signal ->
  (forall i, internet_up i = true) ->
  check_internet_connection fuel st
  = (Spin, upd st (1000 * Z.of_nat fuel) (2 * fuel) (connection_checks fuel)).
Proof.
  intros Hns Hup. revert st. induction fuel as [|f IH]; intros st.
  - cbn [check_internet_connection connection_checks]. unfold spin.
    rewrite upd_id. reflexivity.
  - rewrite check_internet_connection_step.
    rewrite time_sleep_run by (first [lia | unfold sleep_safe; lia | apply Hns]).
    rewrite Hup, IH, !upd_upd. f_equal. state_eq.
Qed.

Lemma check_internet_connection_fails_at k fuel st :
  no_signal ->
  (forall j, (j < k)%nat -> internet_up (tick st + 2 * j + 1) = true) ->
  internet_up (tick st + 2 * k + 1) = false ->
  (k < fuel)%nat ->
  check_internet_connection fuel st
  = (Ret false,
     upd st (1000 * (Z.of_nat k + 1)) (2 * (k + 1))
       (connection_checks (S k) ++ [ELog LError MInternetLost])).
Proof.
  intros Hns. revert fuel st. induction k as [|k IH]; intros fuel st Hup Hdown Hfuel;
    (destruct fuel as [|f]; [lia|]);
    rewrite check_internet_connection_step;
    rewrite time_sleep_run by (first [lia | unfold sleep_safe; lia | apply Hns]);
    rewrite tick_upd.
  - replace (tick st + 1)%nat with (tick st + 2 * 0 + 1)%nat by lia.
    rewrite Hdown, upd_upd. f_equal; try state_eq.
  - replace (tick st + 1)%nat with (tick st + 2 * 0 + 1)%nat by lia.
    rewrite (Hup 0%nat) by lia. rewrite upd_upd.
    rewrite IH; [| |  | lia].
    + rewrite upd_upd. f_equal; try state_eq.
    + intros j Hj. rewrite tick_upd.
      replace (tick st + (1 + 1) + 2 * j + 1)%nat
        with (tick st + 2 * S j + 1)%nat by lia.
      apply Hup. lia.
    + rewrite tick_upd.
      replace (tick st + (1 + 1) + 2 * k + 1)%nat
        with (tick st + 2 * S k + 1)%nat by lia.
      exact Hdown.
Qed.

(** X15: [check_internet_connection] is a watchdog, not a test: it never
    answers [true]. Without signals it sleeps 1 s and probes once per round,
    answers [false] at the first probe that fails, and is still running
    after any number of rounds while the probes succeed. *)
Theorem check_internet_connection_only_reports_loss
  (k fuel : nat) (st : State) :
  no_signal ->
  (forall j, (j < k)%nat -> internet_up (tick st + 2 * j + 1) = true) ->
  (k < fuel)%nat ->
  fst (check_internet_connection fuel st) <> Ret true /\
  (internet_up (tick st + 2 * k + 1) = false ->
   check_internet_connection fuel st
   = (Ret false,
      upd st (1000 * (Z.of_nat k + 1)) (2 * (k + 1))
        (connection_checks (S k) ++ [ELog LError MInternetLost]))) /\
  ((forall i, internet_up i = true) ->
   check_internet_connection fuel st
   = (Spin, upd st (1000 * Z.of_nat fuel) (2 * fuel) (connection_checks fuel))).
Proof.
  intros Hns Hup Hfuel. split; [apply check_internet_connection_never_true|].
  split.
  - intros Hdown. apply check_internet_connection_fails_at; assumption.
  - intros Hall. apply check_internet_connection_while_up; assumption.
Qed.

(** X16: run as a script, the program reaches [main] only through a failed
    connection check. While every probe succeeds, [main] never starts: no
    handler is installed and the trace holds nothing but the rounds of the
    check. When the probe of round [k] fails, [main] starts from the state
    the check leaves. *)
Theorem script_entry_starts_main_after_connection_loss
  (k fuel : nat) (a : Args) (st : State) :
  no_signal ->
  (forall j, (j < k)%nat -> internet_up (tick st + 2 * j + 1) = true) ->
  (k < fuel)%nat ->
  ((forall i, internet_up i = true) ->
   script_entry fuel a st
   = (Spin, upd st (1000 * Z.of_nat fuel) (2 * fuel) (connection_checks fuel))) /\
  (internet_up (tick st + 2 * k + 1) = false ->
   script_entry fuel a st
   = main fuel a
       (upd st (1000 * (Z.of_nat k + 1)) (2 * (k + 1))
          (connection_checks (S k) ++ [ELog LError MInternetLost]))).
Proof.
  intros Hns Hup Hfuel. unfold script_entry, bind. split.
  - intros Hall. rewrite check_internet_connection_while_up by assumption.
    reflexivity.
  - intros Hdown.
    rewrite (check_internet_connection_fails_at k) by assumption.
    reflexivity.
Qed.

(** *** Further properties: the log lines *)

Lemma string_length_append (a b : string) :
  String.length (a ++ b) = (String.length a + String.length b)%nat.
Proof. induction a as [|c a IH]; cbn; [reflexivity | rewrite IH; reflexivity]. Qed.

Lemma append_cancel_r (a b s : string) : (a ++ s = b ++ s)%string -> a = b.
Proof.
  revert b. induction a as [|c a IH]; intros b H;
    pose proof (f_equal String.length H) as Hlen;
    rewrite !string_length_append in Hlen;
    destruct b as [|c' b]; cbn in Hlen; try lia.
  - reflexivity.
  - cbn in H. injection H as -> H. rewrite (IH b H). reflexivity.
Qed.

(** X17: the printed form of a log line loses nothing: two lines are equal
    only if they were logged at the same level with the same message. The
    seven levels are told apart by colour alone, although some share their
    tag. *)
Theorem rendered_line_determines_level_and_message
  (l1 l2 : Level) (m1 m2 : string) :
  rendered l1 m1 = rendered l2 m2 -> l1 = l2 /\ m1 = m2.
Proof.
  intros H.
  assert (Hl : l1 = l2).
  { destruct l1, l2; try reflexivity; cbn in H; discriminate H. }
  subst l2. split; [reflexivity|].
  apply (append_cancel_r m1 m2 LogPy.reset).
  destruct l1; cbn in H; repeat (injection H as H); exact H.
Qed.

End Controller.

(** ** Concrete runs *)

(** C1, witness: three calls on a Linux host. *)
Lemma stop_services_every_call_stops_witness :
  docker_env linux_env = false /\
  exists st',
    for_range 3 (stop_services linux_env) st0 = (Ret tt, st') /\
    stop_invocations (trace st') = (stop_invocations (trace st0) + 3)%nat.
Proof.
  split; [reflexivity|].
  exact (stop_services_every_call_stops linux_env 3 st0 eq_refl).
Defined.

(** C1, counterexample: the second of two calls in a row is not a no-op;
    the stop command has run twice, not once. *)
Lemma second_stop_runs_the_command_again :
  stop_invocations (trace (snd (for_range 2 (stop_services linux_env) st0))) = 2%nat /\
  stop_invocations (trace (snd (for_range 2 (stop_services linux_env) st0))) <> 1%nat.
Proof. vm_compute. split; [reflexivity | discriminate]. Qed.

(** With the exit hook of [test_sample.py] registered, an interrupt during
    the first rotation sleep stops the service twice: once in the handler,
    once more in the hook that runs on [SystemExit]. *)
Example signal_exit_with_exit_hook_stops_twice :
  let E := linux_env_sigint 5 in
  let run := interpreter E (test_sample PyStr.int_ascii E 5) st0 in
  fst run = Raise (SystemExit 0) /\ stop_invocations (trace (snd run)) = 2%nat.
Proof. vm_compute. split; reflexivity. Qed.

(** [main] registers no exit hook: when its loop returns, the service has
    not been stopped at all. *)
Example normal_return_of_main_never_stops :
  let args := {| arg_interval := Some "1"; arg_count := Some 1; arg_ip := false;
                 arg_auto_fix := false; arg_stop := false |} in
  let run := interpreter linux_env (main PyStr.int_ascii linux_env 0 args) st0 in
  fst run = Ret tt /\ stop_invocations (trace (snd run)) = 0%nat.
Proof. vm_compute. split; reflexivity. Qed.

(** Under [main], an interrupt during the first rotation sleep stops the
    service once, in the handler. *)
Example signal_exit_of_main_stops_once :
  let E := linux_env_sigint 6 in
  let args := {| arg_interval := Some "1"; arg_count := Some 0; arg_ip := false;
                 arg_auto_fix := false; arg_stop := false |} in
  let run := interpreter E (main PyStr.int_ascii E 5 args) st0 in
  fst run = Raise (SystemExit 0) /\ stop_invocations (trace (snd run)) = 1%nat.
Proof. vm_compute. split; reflexivity. Qed.

(** C2, witness: the interval ["120-60"]. *)
Lemma malformed_interval_raises_before_first_sleep_witness :
  PyStr.split "-" "120-60" = ["120"; "60"] /\
  PyStr.int_ascii "120" = Some 120 /\ PyStr.int_ascii "60" = Some 60 /\
  change_ip_repeatedly PyStr.int_ascii linux_env 0 (PyStr "120-60") 3 st0
  = (Raise ValueError, st0).
Proof.
  split; [reflexivity|]. split; [reflexivity|]. split; [reflexivity|].
  apply (malformed_interval_raises_before_first_sleep
           PyStr.int_ascii linux_env "120-60" "120" ["60"] 0 3 st0).
  - reflexivity.
  - right. exists "60", []. split; [reflexivity|].
    right. exists 120, 60.
    split; [reflexivity|]. split; [reflexivity | lia].
  - left. lia.
Defined.

(** C2, counterexample: ["5-10-abc"] is not a number and not a range of two
    numbers, yet nothing is reported: the loop reads [5-10], sleeps 8 s and
    completes its cycle. *)
Lemma junk_after_a_range_is_accepted :
  PyStr.int_ascii "5-10-abc" = None /\
  PyStr.split "-" "5-10-abc" = ["5"; "10"; "abc"] /\
  PyStr.int_ascii "abc" = None /\
  let run :=
    change_ip_repeatedly PyStr.int_ascii linux_env 0 (PyStr "5-10-abc") 1 st0 in
  fst run = Ret tt /\
  filter is_cycle_start (trace (snd run)) = [ELog LMinor (MSleepingFor 8)] /\
  count_events is_reload_request (trace (snd run)) = 1%nat /\
  count_events is_report (trace (snd run)) = 1%nat.
Proof. vm_compute. repeat split. Qed.

(** C3, witness: the intervals ["60"] and ["60-120"]. *)
Lemma sleep_time_fixed_or_within_range_witness :
  sleep_time_of PyStr.int_ascii linux_env (PyStr "60") st0 = (Ret 60, st0) /\
  exists s,
    sleep_time_of PyStr.int_ascii linux_env (PyStr "60-120") st0
    = (Ret s, upd st0 0 1 []) /\
    60 <= s <= 120 /\
    (forall v, 60 <= v <= 120 -> rand linux_env (tick st0) = v - 60 -> s = v).
Proof.
  apply (sleep_time_fixed_or_within_range
           PyStr.int_ascii linux_env "60" "120" 60 120 st0);
    try reflexivity.
  lia.
Defined.



(** C5, witness: a host without network. *)
Lemma failed_request_returns_None_witness :
  failed (http_tor dead_env (tick st0)) = true /\
  failed (http_direct dead_env (tick st0)) = true /\
  (exists evs, ma_ip_tor dead_env st0 = (Ret None, upd st0 0 1 evs)) /\
  (exists evs, ma_ip_normal dead_env st0 = (Ret None, upd st0 0 1 evs)).
Proof.
  destruct (failed_request_returns_None dead_env st0) as [Htor Hdirect].
  split; [reflexivity|]. split; [reflexivity|].
  split; [apply Htor | apply Hdirect]; reflexivity.
Defined.

(** C5, counterexample: a 200 answer with a blank body makes the direct
    resolver return the empty string, and an empty [IP] field does the same
    to the proxied one. *)
Lemma resolvers_can_return_the_empty_string :
  failed (http_direct blank_env (tick st0)) = false /\
  fst (ma_ip_normal blank_env st0) = Ret (Some "") /\
  failed (http_tor blank_env (tick st0)) = false /\
  fst (ma_ip_tor blank_env st0) = Ret (Some "").
Proof. vm_compute. repeat split. Qed.


(** The same host, computed: two cycles on ["60-120"] sleep 63 s and 105 s,
    each reloads the service and resolves the address through the relay;
    the clock shows the two sleeps and the two settle delays. *)
Example two_cycles_on_linux :
  let run := change_ip_repeatedly PyStr.int_ascii linux_env 0 (PyStr "60-120") 2 st0 in
  let resolution :=
    [ELog LInfo MFetchingIp; ECheckOutput "pgrep -x tor";
     EHttpGet tor_check_url true (Some 10); ESleep 5;
     EHttpGet tor_check_url true (Some 10)] in
  let cycle s :=
    {| slept := s;
       reloading := [ELog LInfo MReloading; ESystem "sudo service tor reload"];
       resolving := resolution;
       resolved := Some "185.220.101.1" |} in
  fst run = Ret tt /\
  trace (snd run) = flat_map cycle_events [cycle 63; cycle 105] /\
  now (snd run) = 1000 * (63 + 5 + 105 + 5).
Proof. vm_compute. repeat split. Qed.

(** An interval beyond what [time.sleep] can take: the first iteration
    announces its sleep and raises, nothing else happens. *)
Example oversized_interval_on_linux :
  change_ip_repeatedly PyStr.int_ascii linux_env 0 (PyStr "99999999999") 3 st0
  = (Raise OverflowError, upd st0 0 0 [ELog LMinor (MSleepingFor 99999999999)]).
Proof. vm_compute. reflexivity. Qed.

(** The endless loop ends when the interrupt arrives: here during the
    second rotation sleep, with the handler of [main] installed. *)
Example endless_loop_ends_on_interrupt :
  let E := linux_env_sigint 5 in
  let st := snd (install_handler st0) in
  let run := change_ip_repeatedly PyStr.int_ascii E 10 (PyStr "60") 0 st in
  fst run = Raise (SystemExit 0) /\
  count_events is_cycle_start (trace (snd run)) = 2%nat /\
  count_events is_reload_request (trace (snd run)) = 1%nat.
Proof. vm_compute. repeat split. Qed.


(** One cycle in that container, computed: the reload finds no process and
    logs it, the resolution fails, nothing is reported, the loop returns. *)
Example failed_reload_cycle_goes_on :
  let run := change_ip_repeatedly PyStr.int_ascii dead_env 0 (PyStr "30") 1 st0 in
  fst run = Ret tt /\
  trace (snd run)
  = cycle_events
      {| slept := 30;
         reloading := [ELog LInfo MReloading; ECheckOutput "pidof tor";
                       ELog LError MNoTorProcessReload];
         resolving := [ELog LInfo MFetchingIp; ECheckOutput "pgrep -x tor";
                       EHttpGet ipify_url false None;
                       ELog LError MDirectFetchFailed];
         resolved := None |} /\
  count_events is_report (trace (snd run)) = 0%nat.
Proof. vm_compute. repeat split. Qed.

(** Two cycles on a host whose first resolution fails and whose second one
    answers: the first cycle reports nothing, the loop goes on, the second
    cycle reports the address it resolved. *)
Example silent_cycle_then_reporting_cycle :
  let run :=
    change_ip_repeatedly PyStr.int_ascii intermittent_env 0 (PyStr "30") 2 st0 in
  let reload := [ELog LInfo MReloading; ESystem "sudo service tor reload"] in
  let ask := [ELog LInfo MFetchingIp; ECheckOutput "pgrep -x tor";
              EHttpGet ipify_url false None] in
  let silent :=
    {| slept := 30; reloading := reload;
       resolving := ask ++ [ELog LError MDirectFetchFailed];
       resolved := None |} in
  let reporting :=
    {| slept := 30; reloading := reload; resolving := ask;
       resolved := Some "203.0.113.7" |} in
  fst run = Ret tt /\
  trace (snd run) = cycle_events silent ++ cycle_events reporting /\
  filter is_report (cycle_events silent) = [] /\
  filter is_report (trace (snd run))
  = [ELog LChange (MIpChanged (Some "203.0.113.7"))].
Proof. vm_compute. repeat split. Qed.


(** The same run, computed: two failed attempts, then success. *)
Example wait_for_tor_third_attempt :
  let run := wait_for_tor_fuel windows_env 31 30 st0 in
  fst run = Ret true /\
  trace (snd run) = [ELog LInfo (MWaitingForSocks 30)]
                    ++ failed_attempts 2 ++ wait_ending true /\
  now (snd run) = 19000.
Proof. vm_compute. repeat split. Qed.

(** A relay that never answers: [false] after the 30 s have passed. *)
Example wait_for_tor_times_out :
  let run := wait_for_tor_fuel dead_env 31 30 st0 in
  fst run = Ret false /\
  trace (snd run) = [ELog LInfo (MWaitingForSocks 30)]
                    ++ failed_attempts 5 ++ wait_ending false /\
  now (snd run) = 35000.
Proof. vm_compute. repeat split. Qed.

(** C9, witness: the integer 60 with the default count. *)
Lemma non_string_interval_raises_AttributeError_witness :
  parsed_interval default_args = PyInt 60 /\
  parsed_count default_args = 10 /\
  change_ip_repeatedly PyStr.int_ascii linux_env 0 (PyInt 60) 10 st0
  = (Raise AttributeError, st0).
Proof.
  split; [reflexivity|]. split; [reflexivity|].
  apply (non_string_interval_raises_AttributeError
           PyStr.int_ascii linux_env (PyInt 60) 0 10 st0).
  - intros s. discriminate.
  - left. lia.
Defined.

(** [tornet] started without [--interval]: after the initialization, the
    loop raises out of [main] on its first iteration, before its first
    sleep. *)
Example main_without_interval_raises :
  let run := main PyStr.int_ascii linux_env 0 default_args st0 in
  fst run = Raise AttributeError /\
  count_events is_cycle_start (trace (snd run)) = 0%nat.
Proof. vm_compute. split; reflexivity. Qed.

(** ** Concrete runs of the further properties *)

(** X1, witness: count -3 on an interval that is not even a string. *)
Lemma negative_count_runs_no_cycle_witness :
  -3 < 0 /\
  change_ip_repeatedly PyStr.int_ascii linux_env 0 PyNone (-3) st0 = (Ret tt, st0).
Proof.
  split; [lia|].
  apply (negative_count_runs_no_cycle PyStr.int_ascii linux_env PyNone 0 (-3) st0).
  lia.
Defined.

(** X2, witness: a timeout of 0 s on a host whose relay would answer. *)
Lemma wait_for_tor_without_time_never_connects_witness :
  0 <= 0 /\
  wait_for_tor linux_env 0 st0
  = (Ret false,
     upd st0 0 0 [ELog LInfo (MWaitingForSocks 0); ELog LError MSocksTimedOut]).
Proof.
  split; [lia|].
  apply (wait_for_tor_without_time_never_connects linux_env 0 st0). lia.
Defined.

(** X3, witness: a relay that never answers, each attempt running into the
    5 s socket timeout: the 30 s wait is over in less than 37 s. *)
Lemma wait_for_tor_ends_soon_after_deadline_witness :
  (forall i, Z.of_N (snd (connect dead_env i)) <= 5000) /\
  now (snd (wait_for_tor dead_env 30 st0)) - now st0 < 1000 * 30 + 5000 + 2000.
Proof.
  split; [intros i; cbn; lia|].
  apply (wait_for_tor_ends_soon_after_deadline dead_env 30 5000 st0);
    [lia | intros i; cbn; lia].
Defined.

(** X4, witness: a host without a Tor process. *)
Lemma ma_ip_without_tor_asks_directly_witness :
  tor_process_seen blank_env (tick st0) = false /\
  exists st' evs,
    ma_ip blank_env st0
    = (Ret (direct_answer (http_direct blank_env (tick st0 + 1))), st') /\
    trace st' = trace st0 ++ evs /\
    filter is_resolution_step evs = [EHttpGet ipify_url false None] /\
    now st' = now st0.
Proof.
  split; [reflexivity|].
  exact (ma_ip_without_tor_asks_directly blank_env st0 eq_refl).
Defined.

(** X5, witness: the task list of the Windows host names [TOR.EXE] in
    capitals. *)
Lemma is_tor_running_matches_any_tor_exe_witness :
  check_output windows_env (tick st0) "tasklist"
  = Some ("Image Name  PID  " ++ "TOR.EXE" ++ "  4242")%string /\
  PyStr.lower "TOR.EXE" = "tor.exe" /\
  is_tor_running windows_env st0 = (Ret true, upd st0 0 1 [ECheckOutput "tasklist"]).
Proof.
  split; [reflexivity|]. split; [reflexivity|].
  apply (is_tor_running_matches_any_tor_exe
           windows_env "Image Name  PID  " "TOR.EXE" "  4242" st0); reflexivity.
Defined.

(** X6, witness: a Mac without Homebrew. *)
Lemma is_tor_installed_absorbs_failures_witness :
  exists st',
    is_tor_installed mac_env st0 = (Ret false, st') /\
    trace st' = trace st0 ++ [ECheckOutput "which brew"].
Proof.
  destruct (is_tor_installed_absorbs_failures mac_env st0)
    as [st' [evs [Hrun [Ht Hbrew]]]].
  destruct (Hbrew eq_refl eq_refl eq_refl) as [_ Hevs].
  exists st'. split; [exact Hrun | rewrite Ht, Hevs; reflexivity].
Defined.

(** X7, witness: [tornet --auto-fix --stop] on a Mac without Homebrew. *)
Lemma main_without_tor_runs_nothing_witness :
  let args := {| arg_interval := None; arg_count := None; arg_ip := false;
                 arg_auto_fix := true; arg_stop := true |} in
  tor_found mac_env (tick st0) = false /\
  exists st' evs,
    main PyStr.int_ascii mac_env 3 args st0 = (Ret tt, st') /\
    trace st' = trace st0 ++ evs /\
    filter is_command evs = [] /\
    filter is_external evs = [] /\
    markers evs = [] /\
    List.last evs EPrintNewline = ELog LError MTorNotInstalled.
Proof.
  split; [reflexivity|].
  apply (main_without_tor_runs_nothing PyStr.int_ascii mac_env 3); reflexivity.
Defined.

(** X8, witness: a container with Tor as process 4321, and one without a
    Tor process. *)
Lemma stop_services_in_container_witness :
  (exists st' evs,
     stop_services container_env st0 = (Ret tt, st') /\
     trace st' = trace st0 ++ evs /\
     filter is_command evs
     = [ESystem "kill 4321"; ESystem "pkill -f tornet > /dev/null 2>&1"]) /\
  (exists st' evs,
     stop_services dead_env st0 = (Ret tt, st') /\
     trace st' = trace st0 ++ evs /\
     filter is_command evs = [ESystem "pkill -f tornet > /dev/null 2>&1"] /\
     List.last evs EPrintNewline = ELog LSuccess MAllStopped).
Proof.
  split.
  - destruct (stop_services_in_container container_env st0 eq_refl)
      as [st' [evs [Hrun [Ht [Hc _]]]]].
    exists st', evs. split; [exact Hrun|]. split; [exact Ht | exact Hc].
  - destruct (stop_services_in_container dead_env st0 eq_refl)
      as [st' [evs [Hrun [Ht [Hc Hl]]]]].
    exists st', evs. split; [exact Hrun|]. split; [exact Ht|].
    split; [exact Hc | exact Hl].
Defined.

(** X10, witness: a reload on the Windows host and one on the Linux host. *)
Lemma reload_stops_only_on_windows_witness :
  no_signal windows_env /\ no_signal linux_env /\
  (exists st' evs,
     reload_tor_service windows_env st0 = (Ret tt, st') /\
     trace st' = trace st0 ++ evs /\
     stop_invocations evs = 1%nat /\
     filter is_command evs = [ERun "taskkill /IM tor.exe /F"; EPopen "tor"]) /\
  (exists st' evs,
     reload_tor_service linux_env st0 = (Ret tt, st') /\
     trace st' = trace st0 ++ evs /\
     stop_invocations evs = 0%nat /\
     filter is_command evs = [ESystem "sudo service tor reload"]).
Proof.
  split; [intros i; reflexivity|]. split; [intros i; reflexivity|]. split.
  - exact (reload_stops_only_on_windows windows_env st0 (fun i => eq_refl)).
  - exact (reload_stops_only_on_windows linux_env st0 (fun i => eq_refl)).
Defined.


(** X12, witness: two cycles in the host whose endpoints answer with empty
    addresses. *)
Lemma rotation_reports_only_true_addresses_witness :
  interval_range PyStr.int_ascii (PyStr "30") = Some (30, 30) /\
  no_signal blank_env /\
  exists evs,
    trace (snd (change_ip_repeatedly PyStr.int_ascii blank_env 0 (PyStr "30") 2 st0))
    = trace st0 ++ evs /\
    forall a, In (ELog LChange (MIpChanged a)) evs -> truthy a = true.
Proof.
  split; [reflexivity|]. split; [intros i; reflexivity|].
  apply (rotation_reports_only_true_addresses
           PyStr.int_ascii blank_env (PyStr "30") 30 30 2 0 st0 eq_refl);
    [lia | intros i; reflexivity].
Defined.



(** The same run, computed: the announced address is [None]. *)
Example initialize_environment_announces_None :
  let run := initialize_environment dead_env st0 in
  fst run = Ret tt /\
  filter is_report (trace (snd run)) = [ELog LChange (MIpChanged None)].
Proof. vm_compute. split; reflexivity. Qed.

(** X15, witness: the connection is up for two rounds and fails in the
    third. *)
Lemma check_internet_connection_only_reports_loss_witness :
  no_signal linux_env /\
  (forall j, (j < 2)%nat -> up_for_rounds 2 (tick st0 + 2 * j + 1) = true) /\
  up_for_rounds 2 (tick st0 + 2 * 2 + 1) = false /\
  check_internet_connection linux_env (up_for_rounds 2) 5 st0
  = (Ret false,
     upd st0 (1000 * (Z.of_nat 2 + 1)) (2 * (2 + 1))
       (connection_checks 3 ++ [ELog LError MInternetLost])).
Proof.
  assert (Hup : forall j, (j < 2)%nat -> up_for_rounds 2 (tick st0 + 2 * j + 1) = true).
  { intros j Hj. destruct j as [|[|j]]; [reflexivity | reflexivity | lia]. }
  split; [intros i; reflexivity|]. split; [exact Hup|]. split; [reflexivity|].
  apply (check_internet_connection_only_reports_loss
           linux_env (up_for_rounds 2) 2 5 st0 (fun i => eq_refl) Hup);
    [lia | reflexivity].
Defined.

(** X16, witness: with the connection always up the script is still in its
    check after ten rounds, and [main] has not begun. *)
Lemma script_entry_starts_main_after_connection_loss_witness :
  no_signal linux_env /\
  script_entry PyStr.int_ascii linux_env (fun _ => true) 10 default_args st0
  = (Spin, upd st0 (1000 * Z.of_nat 10) (2 * 10) (connection_checks 10)).
Proof.
  split; [intros i; reflexivity|].
  apply (script_entry_starts_main_after_connection_loss
           PyStr.int_ascii linux_env (fun _ => true) 0 10 default_args st0
           (fun i => eq_refl));
    [intros j Hj; lia | lia | intros i; reflexivity].
Defined.

(** X17, witness: a warning line compared with itself. *)
Lemma rendered_line_determines_level_and_message_witness :
  rendered LWarn "tor" = rendered LWarn "tor" /\
  (LWarn = LWarn /\ "tor" = "tor").
Proof.
  split; [reflexivity|].
  exact (rendered_line_determines_level_and_message LWarn LWarn "tor" "tor" eq_refl).
Defined.

(** A warning and an error with the same text share the tag but not the
    line. *)
Example warning_and_error_lines_differ :
  rendered LWarn "tor" <> rendered LError "tor".
Proof. vm_compute. discriminate. Qed.
